(** * Video-Prototyping proxy: job submission and status translation

    A shallow embedding of [main.py]: the payload built for the upstream
    "create task" call, the bounded retry loop of [call_wan_api_create],
    the single GET of [call_wan_api_status], and the two route handlers
    [generate_video] and [check_status].

    Python values that travel through the program are decoded JSON, so they
    are modelled by a dynamically typed [json] value; operations that
    Python defines only on some shapes ([in], subscripting, [.get]) raise
    the exception Python raises on the others.  Outbound calls, sleeps and
    prints are recorded in a log that survives a raised exception.

    What the libraries decide is kept as they decide it: [response.json()]
    raises what [json.loads] raises on the body it is given, and the
    HTTPException constructor replaces a [None] detail by the phrase of the
    status.  Two tables of the interpreter are parameters: the repr of a
    value that is not a str, and the phrases of [http.HTTPStatus]. *)

From Stdlib Require Import ZArith List String Ascii Bool Lia DecimalString.
Import ListNotations.
Local Open Scope string_scope.
Local Open Scope Z_scope.
Local Set Warnings "-register-all".

(** ** Decoded JSON, as Python's [json.loads] produces it *)

Inductive json : Type :=
| JNull                                  (* None *)
| JBool (b : bool)                       (* True / False *)
| JInt (n : Z)                           (* int, unbounded *)
| JFloat (repr : string)                 (* float, carried by its repr; never computed on *)
| JStr (s : string)                      (* str *)
| JArr (items : list json)               (* list *)
| JObj (members : list (string * json)). (* dict with str keys, in insertion order *)

Module Dict.

(** A dict as the list of its items; a key is looked up at its first
    binding. *)
Definition t := list (string * json).

Fixpoint lookup (k : string) (d : t) : option json :=
  match d with
  | [] => None
  | (k', v) :: rest => if String.eqb k k' then Some v else lookup k rest
  end.

Definition mem (k : string) (d : t) : bool :=
  match lookup k d with Some _ => true | None => false end.

(** [d[k] = v]: an existing key keeps its place, a new one goes last. *)
Fixpoint set (k : string) (v : json) (d : t) : t :=
  match d with
  | [] => [(k, v)]
  | (k', v') :: rest =>
      if String.eqb k k' then (k', v) :: rest else (k', v') :: set k v rest
  end.

Definition keys (d : t) : list string := map fst d.

End Dict.

(** ** Python exceptions the program can see *)

(** The classes of httpx (and one that is not a [RequestError]) that
    [client.post] and [client.get] may raise. *)
Inductive httpx_class : Type :=
| ConnectError
| ConnectTimeout | ReadTimeout | WriteTimeout | PoolTimeout
| ReadError | WriteError | CloseError
| ProxyError | UnsupportedProtocol
| LocalProtocolError | RemoteProtocolError
| DecodingError | TooManyRedirects
| InvalidURL.

(** [isinstance(e, httpx.TimeoutException)] *)
Definition is_TimeoutException (c : httpx_class) : bool :=
  match c with
  | ConnectTimeout | ReadTimeout | WriteTimeout | PoolTimeout => true
  | _ => false
  end.

(** [isinstance(e, httpx.RequestError)]: every class above but [InvalidURL]. *)
Definition is_RequestError (c : httpx_class) : bool :=
  match c with
  | InvalidURL => false
  | _ => true
  end.

(** [isinstance(e, (httpx.ConnectError, httpx.TimeoutException))] *)
Definition retried (c : httpx_class) : bool :=
  orb (match c with ConnectError => true | _ => false end)
      (is_TimeoutException c).

(** [type(e).__name__] *)
Definition class_name (c : httpx_class) : string :=
  match c with
  | ConnectError => "ConnectError"
  | ConnectTimeout => "ConnectTimeout"
  | ReadTimeout => "ReadTimeout"
  | WriteTimeout => "WriteTimeout"
  | PoolTimeout => "PoolTimeout"
  | ReadError => "ReadError"
  | WriteError => "WriteError"
  | CloseError => "CloseError"
  | ProxyError => "ProxyError"
  | UnsupportedProtocol => "UnsupportedProtocol"
  | LocalProtocolError => "LocalProtocolError"
  | RemoteProtocolError => "RemoteProtocolError"
  | DecodingError => "DecodingError"
  | TooManyRedirects => "TooManyRedirects"
  | InvalidURL => "InvalidURL"
  end.

Inductive exn : Type :=
| HTTPException (status_code : Z) (detail : json)
| HttpxError (cls : httpx_class) (msg : string)
| JSONDecodeError
| UnicodeDecodeError
| RecursionError
| ValueError
| TypeError
| AttributeError
| KeyError (key : string).


(** ** Results of pure Python operations *)

Inductive outcome (A : Type) : Type :=
| Return (a : A)
| Raise (e : exn).
Arguments Return {A} a.
Arguments Raise {A} e.

(** [needle in hay] on two strs: [needle] occurs as a substring. *)
Fixpoint str_contains (needle hay : string) : bool :=
  if String.prefix needle hay then true
  else match hay with
       | EmptyString => false
       | String _ rest => str_contains needle rest
       end.

Definition is_str (k : string) (v : json) : bool :=
  match v with JStr s => String.eqb s k | _ => false end.

(** [k in v] for a str [k]. *)
Definition py_in (k : string) (v : json) : outcome bool :=
  match v with
  | JObj d => Return (Dict.mem k d)
  | JArr l => Return (existsb (is_str k) l)
  | JStr s => Return (str_contains k s)
  | JNull | JBool _ | JInt _ | JFloat _ => Raise TypeError
  end.

(** [v[k]] for a str [k]. *)
Definition py_getitem (v : json) (k : string) : outcome json :=
  match v with
  | JObj d =>
      match Dict.lookup k d with
      | Some x => Return x
      | None => Raise (KeyError k)
      end
  | _ => Raise TypeError
  end.

(** [v.get(k, default)]: only a dict has the method. *)
Definition py_get (v : json) (k : string) (default : json) : outcome json :=
  match v with
  | JObj d =>
      match Dict.lookup k d with
      | Some x => Return x
      | None => Return default
      end
  | _ => Raise AttributeError
  end.

(** [v == s] for a str literal [s]. *)
Definition py_eq_str (v : json) (s : string) : bool := is_str s v.

(** ** The request model of the route *)

Record VideoGenerationRequest : Type := {
  prompt : string;
  negative_prompt : option string;   (* Optional[str] = None *)
  size : string;                     (* = "1280*720" *)
  duration : Z;                      (* = 5 *)
  audio : bool;                      (* = True *)
  prompt_extend : bool               (* = True *)
}.

Definition of_optional_str (o : option string) : json :=
  match o with
  | None => JNull
  | Some s => JStr s
  end.

(** ** The world: the shared client, the log, and the effects *)

Inductive http_method : Type := POST | GET.

Record request : Type := {
  rq_method : http_method;
  rq_url : string;
  rq_headers : list (string * string);
  rq_json : option json
}.

(** Why [response.json()] fails on a body: it is not JSON, its bytes are
    not valid in the encoding [json.loads] detects, or it is nested beyond
    the interpreter's recursion limit. *)
Inductive json_failure : Type :=
| InvalidJSON
| InvalidUnicode
| TooDeeplyNested.

(** The exception [response.json()] raises for each failure. *)
Definition decode_exn (f : json_failure) : exn :=
  match f with
  | InvalidJSON => JSONDecodeError
  | InvalidUnicode => UnicodeDecodeError
  | TooDeeplyNested => RecursionError
  end.

(** An [httpx.Response]: [json_body] is what [response.json()] returns,
    [None] when the body does not decode and it raises; [json_error] says
    what it raises then. *)
Record response : Type := {
  status_code : Z;
  text : string;
  json_body : option json;
  json_error : json_failure
}.

Inductive transport_result : Type :=
| Responded (r : response)
| Failed (cls : httpx_class) (msg : string).

(** The shared [httpx.AsyncClient] together with the upstream behind it:
    what the [n]-th outbound call of an exchange (counted from 0) gets for
    the request it sends. *)
Definition AsyncClient : Type := nat -> request -> transport_result.

Inductive event : Type :=
| ESend (rq : request)
| ESleep (seconds : Z)
| EPrint (line : string).

Record world : Type := {
  calls : nat;          (* outbound calls made so far *)
  log : list event      (* everything observable, oldest first *)
}.

Definition init : world := {| calls := 0; log := [] |}.

Definition M (A : Type) : Type := world -> outcome A * world.

Definition ret {A} (a : A) : M A := fun w => (Return a, w).
Definition raise {A} (e : exn) : M A := fun w => (Raise e, w).

Definition bind {A B} (m : M A) (k : A -> M B) : M B :=
  fun w =>
    match m w with
    | (Return a, w') => k a w'
    | (Raise e, w') => (Raise e, w')
    end.

Definition lift {A} (o : outcome A) : M A := fun w => (o, w).

Declare Scope py_scope.
Delimit Scope py_scope with py.
Notation "x <- m ;; k" := (bind m (fun x => k))
  (at level 61, m at next level, right associativity) : py_scope.
Notation "m ;; k" := (bind m (fun _ => k))
  (at level 61, right associativity) : py_scope.
Local Open Scope py_scope.

(** [try: body  except <clauses>]: the handler says which exceptions it
    takes; the others keep propagating. *)
Definition try_except {A} (body : M A) (handler : exn -> option (M A)) : M A :=
  fun w =>
    match body w with
    | (Return a, w') => (Return a, w')
    | (Raise e, w') =>
        match handler e with
        | Some h => h w'
        | None => (Raise e, w')
        end
    end.

Definition emit (ev : event) : M unit :=
  fun w => (Return tt, {| calls := calls w; log := log w ++ [ev] |}).

Definition print (line : string) : M unit := emit (EPrint line).

(** [await asyncio.sleep(seconds)] *)
Definition sleep (seconds : Z) : M unit := emit (ESleep seconds).

(** One outbound call on the shared client. *)
Definition send (client : AsyncClient) (rq : request) : M response :=
  fun w =>
    let w' := {| calls := S (calls w); log := log w ++ [ESend rq] |} in
    match client (calls w) rq with
    | Responded r => (Return r, w')
    | Failed cls msg => (Raise (HttpxError cls msg), w')
    end.

Definition client_post (client : AsyncClient) (url : string)
    (headers : list (string * string)) (payload : json) : M response :=
  send client {| rq_method := POST; rq_url := url;
                 rq_headers := headers; rq_json := Some payload |}.

Definition client_get (client : AsyncClient) (url : string)
    (headers : list (string * string)) : M response :=
  send client {| rq_method := GET; rq_url := url;
                 rq_headers := headers; rq_json := None |}.

(** [response.json()] *)
Definition response_json (r : response) : M json :=
  match json_body r with
  | Some v => ret v
  | None => raise (decode_exn (json_error r))
  end.

(** [for i in range(n): body(i)], where the body may leave the function
    with [return v] ([Some v]) or fall through to the next round ([None]);
    [after] is the code that follows the loop. *)
Fixpoint for_each {A} (rounds : list nat) (body : nat -> M (option A))
    (after : M A) : M A :=
  match rounds with
  | [] => after
  | i :: rest =>
      r <- body i ;;
      match r with
      | Some v => ret v
      | None => for_each rest body after
      end
  end.

Definition for_range {A} (n : nat) (body : nat -> M (option A))
    (after : M A) : M A :=
  for_each (seq 0 n) body after.

(** [str(n)] for a non-negative int. *)
Definition str_of_nat (n : nat) : string :=
  NilZero.string_of_uint (Nat.to_uint n).

(** ** The program *)

Definition BASE_URL : string := "https://dashscope-intl.aliyuncs.com/api/v1".
Definition MODEL_NAME : string := "wan2.6-t2v".

(** The payload dict of [call_wan_api_create]. *)
Definition build_payload (data : VideoGenerationRequest) : json :=
  JObj [
    ("model", JStr MODEL_NAME);
    ("input", JObj [
      ("prompt", JStr (prompt data));
      ("negative_prompt", of_optional_str (negative_prompt data))
    ]);
    ("parameters", JObj [
      ("size", JStr (size data));
      ("duration", JInt (duration data));
      ("prompt_extend", JBool (prompt_extend data));
      ("audio", JBool (audio data))
    ])
  ].

Section Program.

(** [API_KEY = os.getenv("DASHSCOPE_API_KEY")], read once at import. *)
Variable API_KEY : option string.

(** What the interpreter's [format()] makes of a decoded value that is
    not a str (its repr). *)
Variable py_repr : json -> string.

(** [http.HTTPStatus(code).phrase]: the phrase the interpreter's table has
    for a status code, [None] for a code that is not in the table. *)
Variable http_phrase : Z -> option string.

(** [HTTPException(status_code=code, detail=detail)]: the constructor puts
    the status phrase in the place of a [None] detail, and raises
    ValueError itself when the status has no phrase. *)
Definition new_HTTPException (code : Z) (detail : json) : outcome exn :=
  match detail with
  | JNull =>
      match http_phrase code with
      | Some phrase => Return (HTTPException code (JStr phrase))
      | None => Raise ValueError
      end
  | _ => Return (HTTPException code detail)
  end.

(** [raise HTTPException(status_code=code, detail=detail)] *)
Definition raise_HTTPException {A} (code : Z) (detail : json) : M A :=
  match new_HTTPException code detail with
  | Return e => raise e
  | Raise e => raise e
  end.

(** [f"{v}"] *)
Definition py_format (v : json) : string :=
  match v with
  | JStr s => s
  | _ => py_repr v
  end.

(** [f"{API_KEY}"] *)
Definition format_key : string :=
  match API_KEY with
  | None => "None"
  | Some k => k
  end.

(** [not API_KEY]: unset, or set to the empty string. *)
Definition key_missing : bool :=
  match API_KEY with
  | None => true
  | Some k => String.eqb k ""
  end.

Definition create_url : string :=
  BASE_URL ++ "/services/aigc/video-generation/video-synthesis".

Definition create_headers : list (string * string) :=
  [ ("Content-Type", "application/json");
    ("Authorization", "Bearer " ++ format_key);
    ("X-DashScope-Async", "enable") ].

Definition max_retries : nat := 3.

(** The [try] block of one round of the loop. *)
Definition attempt_body (client : AsyncClient) (payload : json)
    : M (option json) :=
  response <- client_post client create_url create_headers payload ;;
  (if negb (status_code response =? 200) then
     print ("API Error Response: " ++ text response) ;;
     detail <- response_json response ;;
     raise_HTTPException (status_code response) detail
   else ret tt) ;;
  response_json <- response_json response ;;
  has_output <- lift (py_in "output" response_json) ;;
  missing <-
    (if negb has_output then ret true
     else
       output <- lift (py_getitem response_json "output") ;;
       has_id <- lift (py_in "task_id" output) ;;
       ret (negb has_id)) ;;
  (if (missing : bool) then
     raise (HTTPException 500 (JStr "API response missing task_id"))
   else ret tt) ;;
  output <- lift (py_getitem response_json "output") ;;
  task_id <- lift (py_getitem output "task_id") ;;
  ret (Some task_id).

(** The two [except] clauses, tried in order. *)
Definition attempt_handler (attempt : nat) (e : exn)
    : option (M (option json)) :=
  match e with
  | HttpxError cls msg =>
      if retried cls
      then Some (
        print ("Attempt " ++ str_of_nat (attempt + 1)
               ++ " failed with error: " ++ msg) ;;
        (if Nat.eqb attempt (max_retries - 1) then
           print ("Network Error Occurred: " ++ class_name cls ++ ": " ++ msg) ;;
           raise (HTTPException 500 (JStr ("Network Error: " ++ msg)))
         else ret tt) ;;
        sleep 1 ;;
        ret None)
      else if is_RequestError cls
      then Some (
        print ("Network Error Occurred: " ++ class_name cls ++ ": " ++ msg) ;;
        raise (HTTPException 500 (JStr ("Network Error: " ++ msg))))
      else None
  | _ => None
  end.

Definition call_wan_api_create (client : AsyncClient)
    (data : VideoGenerationRequest) : M json :=
  let payload := build_payload data in
  for_range max_retries
    (fun attempt =>
       try_except (attempt_body client payload) (attempt_handler attempt))
    (raise (HTTPException 500 (JStr "Unknown error during API call"))).

Definition status_url (task_id : string) : string :=
  BASE_URL ++ "/tasks/" ++ task_id.

Definition status_headers : list (string * string) :=
  [ ("Authorization", "Bearer " ++ format_key) ].

Definition call_wan_api_status (client : AsyncClient) (task_id : string)
    : M json :=
  try_except
    (response <- client_get client (status_url task_id) status_headers ;;
     response_json response)
    (fun e =>
       match e with
       | HttpxError cls msg =>
           if is_RequestError cls
           then Some (
             print ("Status Check Network Error: " ++ msg) ;;
             raise (HTTPException 500 (JStr msg)))
           else None
       | _ => None
       end).

(** The request object of a route, as far as the handlers use it:
    [req.app.state.http_client]. *)
Record Request : Type := { http_client : AsyncClient }.

(** [POST /api/generate] *)
Definition generate_video (request : VideoGenerationRequest) (req : Request)
    : M json :=
  (if key_missing then
     raise (HTTPException 500 (JStr "API Key not configured on server."))
   else ret tt) ;;
  let client := http_client req in
  task_id <- call_wan_api_create client request ;;
  ret (JObj [ ("task_id", task_id);
              ("message", JStr "Task created successfully") ]).

(** [GET /api/status/{task_id}] *)
Definition check_status (task_id : string) (req : Request) : M json :=
  let client := http_client req in
  result <- call_wan_api_status client task_id ;;
  output <- lift (py_get result "output" (JObj [])) ;;
  status <- lift (py_get output "task_status" (JStr "UNKNOWN")) ;;
  usage <- lift (py_get result "usage" (JObj [])) ;;
  let response_data : Dict.t :=
    [ ("status", status);
      ("progress_msg", JStr "Processing...");
      ("video_url", JNull);
      ("usage", usage) ] in
  if py_eq_str status "SUCCEEDED" then
    video_url <- lift (py_get output "video_url" JNull) ;;
    let response_data := Dict.set "video_url" video_url response_data in
    let response_data := Dict.set "progress_msg" (JStr "Completed") response_data in
    ret (JObj response_data)
  else if py_eq_str status "FAILED" then
    message <- lift (py_get output "message" (JStr "Unknown error")) ;;
    let response_data :=
      Dict.set "progress_msg" (JStr ("Failed: " ++ py_format message))
        response_data in
    ret (JObj response_data)
  else
    ret (JObj response_data).

End Program.

(** ** Observing a run *)

Definition run {A} (m : M A) : outcome A * world := m init.

(** The requests sent, oldest first. *)
Fixpoint sends (l : list event) : list request :=
  match l with
  | [] => []
  | ESend rq :: rest => rq :: sends rest
  | _ :: rest => sends rest
  end.

(** The log without what was only printed: the outbound calls and the
    sleeps, in the order they happened. *)
Fixpoint schedule (l : list event) : list event :=
  match l with
  | [] => []
  | EPrint _ :: rest => schedule rest
  | ev :: rest => ev :: schedule rest
  end.

(** The lines printed for the operator. *)
Fixpoint printed (l : list event) : list string :=
  match l with
  | [] => []
  | EPrint line :: rest => line :: printed rest
  | _ :: rest => printed rest
  end.

(** The request every round of [call_wan_api_create] sends. *)
Definition create_request (API_KEY : option string)
    (data : VideoGenerationRequest) : request :=
  {| rq_method := POST;
     rq_url := create_url;
     rq_headers := create_headers API_KEY;
     rq_json := Some (build_payload data) |}.

(** The request [call_wan_api_status] sends. *)
Definition status_request (API_KEY : option string) (task_id : string)
    : request :=
  {| rq_method := GET;
     rq_url := status_url task_id;
     rq_headers := status_headers API_KEY;
     rq_json := None |}.

(** A call that fails to connect or times out. *)
Definition transient (r : transport_result) : Prop :=
  match r with
  | Failed cls _ => retried cls = true
  | Responded _ => False
  end.

Definition failure_message (r : transport_result) : string :=
  match r with
  | Failed _ msg => msg
  | Responded _ => ""
  end.

(** [v.k] as the spec reads a decoded body: the member [k] of an object,
    nothing for any other shape. *)
Definition member (k : string) (v : json) : option json :=
  match v with
  | JObj d => Dict.lookup k d
  | _ => None
  end.

(** [output.task_id] of a decoded create-task body. *)
Definition task_id_of (body : json) : option json :=
  match member "output" body with
  | Some output => member "task_id" output
  | None => None
  end.

(** [v.k1.k2...] *)
Fixpoint path (ks : list string) (v : json) : option json :=
  match ks with
  | [] => Some v
  | k :: rest =>
      match member k v with
      | Some x => path rest x
      | None => None
      end
  end.

(** The names of the fields of an object. *)
Definition fields (v : json) : list string :=
  match v with
  | JObj d => Dict.keys d
  | _ => []
  end.

Definition is_object (v : json) : Prop :=
  match v with
  | JObj _ => True
  | _ => False
  end.

(** An object whose [output] member, when it has one, is an object: the
    shape the two handlers take an upstream body to have. *)
Definition object_shaped (body : json) : Prop :=
  is_object body /\
  match member "output" body with
  | Some output => is_object output
  | None => True
  end.

Definition or_default (o : option json) (default : json) : json :=
  match o with
  | Some v => v
  | None => default
  end.

(** The StatusReport as the spec words it (section 4.4), for a decoded
    get-task body: [status] is [output.task_status] or "UNKNOWN";
    SUCCEEDED sets [video_url] from [output.video_url] and says
    "Completed"; FAILED says "Failed: " and the message, or a fallback;
    anything else says "Processing..." and leaves [video_url] unset.
    [fmt] is how a value is formatted into the message. *)
Definition spec_status_report (fmt : json -> string) (body : json) : json :=
  let status := or_default (path ["output"; "task_status"] body) (JStr "UNKNOWN") in
  let usage := or_default (member "usage" body) (JObj []) in
  let report progress_msg video_url :=
    JObj [ ("status", status);
           ("progress_msg", JStr progress_msg);
           ("video_url", video_url);
           ("usage", usage) ] in
  if is_str "SUCCEEDED" status then
    report "Completed" (or_default (path ["output"; "video_url"] body) JNull)
  else if is_str "FAILED" status then
    report
      ("Failed: "
       ++ fmt (or_default (path ["output"; "message"] body) (JStr "Unknown error")))
      JNull
  else
    report "Processing..." JNull.

(** One round of the retry loop. *)
Definition round (API_KEY : option string) (http_phrase : Z -> option string)
    (client : AsyncClient) (data : VideoGenerationRequest) (attempt : nat)
    : M (option json) :=
  try_except (attempt_body API_KEY http_phrase client (build_payload data))
             (attempt_handler attempt).

(** What a response with a status other than 200 is turned into: the
    HTTPException with the upstream's status and decoded body, the status
    phrase standing in for a null body, or what failed on the way. *)
Definition rejection (http_phrase : Z -> option string) (r : response) : exn :=
  match json_body r with
  | Some detail =>
      match new_HTTPException http_phrase (status_code r) detail with
      | Return e => e
      | Raise e => e
      end
  | None => decode_exn (json_error r)
  end.

(** The world after one more outbound call, with what was logged from the
    call on. *)
Definition after_call (w : world) (evs : list event) : world :=
  {| calls := S (calls w); log := log w ++ evs |}.

(** ** Sample inputs for the closed runs *)

(** The phrases of [http.HTTPStatus] for the statuses the closed runs
    use. *)
Definition std_phrase (code : Z) : option string :=
  match code with
  | 200 => Some "OK"
  | 201 => Some "Created"
  | 202 => Some "Accepted"
  | 204 => Some "No Content"
  | 400 => Some "Bad Request"
  | 401 => Some "Unauthorized"
  | 403 => Some "Forbidden"
  | 404 => Some "Not Found"
  | 429 => Some "Too Many Requests"
  | 500 => Some "Internal Server Error"
  | 502 => Some "Bad Gateway"
  | 503 => Some "Service Unavailable"
  | 504 => Some "Gateway Timeout"
  | _ => None
  end.

Definition sample_request : VideoGenerationRequest :=
  {| prompt := "a cat on a skateboard"; negative_prompt := None;
     size := "1280*720"; duration := 5;
     audio := true; prompt_extend := true |}.

(** An upstream that answers every call with the same response. *)
Definition always (r : response) : AsyncClient := fun _ _ => Responded r.

(** An upstream that refuses every connection. *)
Definition unreachable : AsyncClient :=
  fun _ _ => Failed ConnectError "refused".

(** An upstream that is unreachable twice and then creates the task. *)
Definition flaky_then (r : response) : AsyncClient :=
  fun n _ =>
    match n with
    | 0%nat => Failed ConnectError "All connection attempts failed"
    | 1%nat => Failed ReadTimeout "timed out"
    | _ => Responded r
    end.

(** A formatter for the closed runs below; none of them formats anything
    but a str, so nothing depends on its choice. *)
Definition repr_unused : json -> string := fun _ => "<repr>".

(** The body of a finished task, as in the spec's example. *)
Definition succeeded_body : json :=
  JObj [ ("output", JObj [ ("task_status", JStr "SUCCEEDED");
                           ("video_url", JStr "http://x/v.mp4") ]) ].

(** An upstream whose first answer is a connect timeout and which then
    answers every call with the same response. *)
Definition timeout_then (r : response) : AsyncClient :=
  fun n _ =>
    match n with
    | 0%nat => Failed ConnectTimeout "timed out"
    | _ => Responded r
    end.

(** An upstream whose connection breaks while the response is read. *)
Definition broken_pipe : AsyncClient :=
  fun _ _ => Failed ReadError "peer closed connection".

(** A client that refuses the URL it is given. *)
Definition bad_url : AsyncClient :=
  fun _ _ => Failed InvalidURL "Invalid non-printable ASCII character in URL".

(** A 400 with a JSON error body. *)
Definition bad_request : response :=
  {| status_code := 400; text := "{...}";
     json_body := Some (JObj [ ("code", JStr "InvalidParameter") ]);
     json_error := InvalidJSON |}.

(** A 200 that creates task [t-42]. *)
Definition task_created : response :=
  {| status_code := 200; text := "{...}";
     json_body :=
       Some (JObj [ ("output", JObj [ ("task_id", JStr "t-42");
                                      ("task_status", JStr "PENDING") ]) ]);
     json_error := InvalidJSON |}.


(** A 200 whose body is not JSON. *)
Definition not_json : response :=
  {| status_code := 200; text := "<html>OK</html>"; json_body := None;
     json_error := InvalidJSON |}.

(** ** Case tables and vocabulary for the general properties *)

(** What one round of the loop comes to, by the answer its POST gets: the
    outcome of the round and what it logs after the call.  [round_cases]
    proves that every round of [call_wan_api_create] is one of these. *)
Inductive round_step (http_phrase : Z -> option string) (attempt : nat)
  : transport_result -> outcome (option json) -> list event -> Prop :=
| step_retry cls msg :
    retried cls = true ->
    Nat.eqb attempt (max_retries - 1) = false ->
    round_step http_phrase attempt (Failed cls msg) (Return None)
      [ EPrint ("Attempt " ++ str_of_nat (attempt + 1)
                ++ " failed with error: " ++ msg);
        ESleep 1 ]
| step_exhausted cls msg :
    retried cls = true ->
    Nat.eqb attempt (max_retries - 1) = true ->
    round_step http_phrase attempt (Failed cls msg)
      (Raise (HTTPException 500 (JStr ("Network Error: " ++ msg))))
      [ EPrint ("Attempt " ++ str_of_nat (attempt + 1)
                ++ " failed with error: " ++ msg);
        EPrint ("Network Error Occurred: " ++ class_name cls ++ ": " ++ msg) ]
| step_request_error cls msg :
    retried cls = false ->
    is_RequestError cls = true ->
    round_step http_phrase attempt (Failed cls msg)
      (Raise (HTTPException 500 (JStr ("Network Error: " ++ msg))))
      [ EPrint ("Network Error Occurred: " ++ class_name cls ++ ": " ++ msg) ]
| step_not_caught cls msg :
    retried cls = false ->
    is_RequestError cls = false ->
    round_step http_phrase attempt (Failed cls msg) (Raise (HttpxError cls msg)) []
| step_rejected r :
    status_code r <> 200 ->
    round_step http_phrase attempt (Responded r)
      (Raise (rejection http_phrase r))
      [ EPrint ("API Error Response: " ++ text r) ]
| step_undecodable r :
    status_code r = 200 ->
    json_body r = None ->
    round_step http_phrase attempt (Responded r)
      (Raise (decode_exn (json_error r))) []
| step_task_id r body task_id :
    status_code r = 200 ->
    json_body r = Some body ->
    task_id_of body = Some task_id ->
    round_step http_phrase attempt (Responded r) (Return (Some task_id)) []
| step_no_task_id r body e :
    status_code r = 200 ->
    json_body r = Some body ->
    task_id_of body = None ->
    e = HTTPException 500 (JStr "API response missing task_id") \/ e = TypeError ->
    (object_shaped body ->
     e = HTTPException 500 (JStr "API response missing task_id")) ->
    round_step http_phrase attempt (Responded r) (Raise e) [].

(** The upstream as seen from its [k]-th call on. *)
Definition shift (k : nat) (client : AsyncClient) : AsyncClient :=
  fun n rq => client (n + k)%nat rq.

(** [k] failed attempts, each followed by its one-second sleep. *)
Fixpoint retry_prefix (k : nat) (rq : request) : list event :=
  match k with
  | O => []
  | S k' => ESend rq :: ESleep 1 :: retry_prefix k' rq
  end.



(** What [generate_video] makes of the Submission Executor's outcome. *)
Definition created (o : outcome json) : outcome json :=
  match o with
  | Return task_id =>
      Return (JObj [ ("task_id", task_id);
                     ("message", JStr "Task created successfully") ])
  | Raise e => Raise e
  end.

(** ** The loop, one round at a time *)

Lemma for_each_cons {A} (i : nat) (rest : list nat)
    (body : nat -> M (option A)) (after : M A) (w : world) :
  for_each (i :: rest) body after w =
    match body i w with
    | (Return (Some v), w') => (Return v, w')
    | (Return None, w') => for_each rest body after w'
    | (Raise e, w') => (Raise e, w')
    end.
Proof.
  cbn. unfold bind. destruct (body i w) as [ [ [ v | ] | e ] w' ]; reflexivity.
Qed.

(** ** One round, by what the upstream answers *)

Section Rounds.

Variable API_KEY : option string.
Variable http_phrase : Z -> option string.
Variable client : AsyncClient.
Variable data : VideoGenerationRequest.

Let rq := create_request API_KEY data.

Ltac run_round H :=
  unfold round, try_except, attempt_body, client_post, send, bind, after_call;
  fold create_url; change
    {| rq_method := POST; rq_url := create_url;
       rq_headers := create_headers API_KEY;
       rq_json := Some (build_payload data) |} with rq;
  rewrite H; cbn -[String.append str_of_nat].

Ltac finish := rewrite <- ?app_assoc; reflexivity.

Lemma round_transient (attempt : nat) (w : world) cls msg :
  client (calls w) rq = Failed cls msg ->
  retried cls = true ->
  Nat.eqb attempt (max_retries - 1) = false ->
  round API_KEY http_phrase client data attempt w =
    (Return None,
     after_call w
       [ ESend rq;
         EPrint ("Attempt " ++ str_of_nat (attempt + 1)
                 ++ " failed with error: " ++ msg);
         ESleep 1 ]).
Proof.
  intros H Hc Ha. run_round H. rewrite Hc.
  unfold max_retries in Ha. cbn in Ha. rewrite Ha.
  cbn -[String.append str_of_nat]. finish.
Qed.

Lemma round_transient_last (attempt : nat) (w : world) cls msg :
  client (calls w) rq = Failed cls msg ->
  retried cls = true ->
  Nat.eqb attempt (max_retries - 1) = true ->
  round API_KEY http_phrase client data attempt w =
    (Raise (HTTPException 500 (JStr ("Network Error: " ++ msg))),
     after_call w
       [ ESend rq;
         EPrint ("Attempt " ++ str_of_nat (attempt + 1)
                 ++ " failed with error: " ++ msg);
         EPrint ("Network Error Occurred: " ++ class_name cls ++ ": " ++ msg) ]).
Proof.
  intros H Hc Ha. run_round H. rewrite Hc.
  unfold max_retries in Ha. cbn in Ha. rewrite Ha.
  cbn -[String.append str_of_nat]. finish.
Qed.

Lemma round_other_request_error (attempt : nat) (w : world) cls msg :
  client (calls w) rq = Failed cls msg ->
  retried cls = false ->
  is_RequestError cls = true ->
  round API_KEY http_phrase client data attempt w =
    (Raise (HTTPException 500 (JStr ("Network Error: " ++ msg))),
     after_call w
       [ ESend rq;
         EPrint ("Network Error Occurred: " ++ class_name cls ++ ": " ++ msg) ]).
Proof.
  intros H Hc Hr. run_round H. rewrite Hc, Hr.
  cbn -[String.append str_of_nat]. finish.
Qed.

Lemma round_rejected (attempt : nat) (w : world) r :
  client (calls w) rq = Responded r ->
  status_code r <> 200 ->
  round API_KEY http_phrase client data attempt w =
    (Raise (rejection http_phrase r),
     after_call w
       [ ESend rq; EPrint ("API Error Response: " ++ text r) ]).
Proof.
  intros H Hs. run_round H.
  apply Z.eqb_neq in Hs. rewrite Hs. cbn -[String.append].
  unfold response_json, rejection, raise_HTTPException, new_HTTPException.
  destruct (json_body r) as [ detail | ]; cbn -[String.append];
    [ destruct detail; try destruct (http_phrase (status_code r))
    | destruct (json_error r) ];
    cbn -[String.append]; finish.
Qed.

Lemma round_undecodable (attempt : nat) (w : world) r :
  client (calls w) rq = Responded r ->
  status_code r = 200 ->
  json_body r = None ->
  round API_KEY http_phrase client data attempt w =
    (Raise (decode_exn (json_error r)), after_call w [ ESend rq ]).
Proof.
  intros H Hs Hb. run_round H.
  rewrite Hs. cbn. unfold response_json. rewrite Hb.
  destruct (json_error r); reflexivity.
Qed.

Lemma round_task_id (attempt : nat) (w : world) r body task_id :
  client (calls w) rq = Responded r ->
  status_code r = 200 ->
  json_body r = Some body ->
  task_id_of body = Some task_id ->
  round API_KEY http_phrase client data attempt w =
    (Return (Some task_id), after_call w [ ESend rq ]).
Proof.
  intros H Hs Hb Ht. run_round H.
  rewrite Hs. cbn. unfold response_json. rewrite Hb. cbn.
  unfold task_id_of, member in Ht.
  destruct body as [ | | | | | | d ]; try discriminate.
  cbn. unfold Dict.mem.
  destruct (Dict.lookup "output" d) as [ output | ]; [ | discriminate ].
  cbn. destruct output as [ | | | | | | o ]; try discriminate.
  cbn. unfold Dict.mem. rewrite Ht. reflexivity.
Qed.

Lemma round_no_task_id (attempt : nat) (w : world) r body :
  client (calls w) rq = Responded r ->
  status_code r = 200 ->
  json_body r = Some body ->
  task_id_of body = None ->
  exists e,
    round API_KEY http_phrase client data attempt w =
      (Raise e, after_call w [ ESend rq ])
    /\ (e = HTTPException 500 (JStr "API response missing task_id")
        \/ e = TypeError)
    /\ (object_shaped body ->
        e = HTTPException 500 (JStr "API response missing task_id")).
Proof.
  intros H Hs Hb Ht. run_round H.
  rewrite Hs. cbn. unfold response_json. rewrite Hb. cbn.
  unfold task_id_of, member in Ht. unfold object_shaped, is_object, member.
  destruct body as [ | b | n | f | s | l | d ]; cbn.
  1-4: eexists; split; [ reflexivity | split; [ now right | tauto ] ].
  - (* a str: substring tests, then subscripting by a str *)
    destruct (str_contains "output" s); cbn;
      eexists; (split; [ reflexivity | split; [ auto | tauto ] ]).
  - (* a list *)
    destruct (existsb (is_str "output") l); cbn;
      eexists; (split; [ reflexivity | split; [ auto | tauto ] ]).
  - (* a dict *)
    unfold Dict.mem.
    destruct (Dict.lookup "output" d) as [ output | ]; cbn.
    + destruct output as [ | b | n | f | s | l | o ]; cbn.
      1-4: eexists; split; [ reflexivity | split; [ now right | tauto ] ].
      * destruct (str_contains "task_id" s); cbn;
          eexists; (split; [ reflexivity | split; [ auto | tauto ] ]).
      * destruct (existsb (is_str "task_id") l); cbn;
          eexists; (split; [ reflexivity | split; [ auto | tauto ] ]).
      * unfold Dict.mem. rewrite Ht. cbn.
        eexists; split; [ reflexivity | split; [ now left | auto ] ].
    + eexists; split; [ reflexivity | split; [ now left | auto ] ].
Qed.

Lemma round_not_request_error (attempt : nat) (w : world) cls msg :
  client (calls w) rq = Failed cls msg ->
  retried cls = false ->
  is_RequestError cls = false ->
  round API_KEY http_phrase client data attempt w =
    (Raise (HttpxError cls msg), after_call w [ ESend rq ]).
Proof.
  intros H Hc Hr. run_round H. rewrite Hc, Hr. reflexivity.
Qed.

(** Whatever the upstream does, a round makes one call, the first thing
    it logs, and sends nothing else. *)
Lemma round_sends_once (attempt : nat) (w : world) :
  exists o evs,
    round API_KEY http_phrase client data attempt w = (o, after_call w (ESend rq :: evs))
    /\ sends evs = [].
Proof.
  destruct (client (calls w) rq) as [ r | cls msg ] eqn:E.
  - destruct (Z.eq_dec (status_code r) 200) as [ Hs | Hs ].
    + destruct (json_body r) as [ body | ] eqn:Hb.
      * destruct (task_id_of body) as [ task_id | ] eqn:Ht.
        -- do 2 eexists. split; [ eapply round_task_id; eauto | reflexivity ].
        -- destruct (round_no_task_id attempt w r body E Hs Hb Ht)
             as (e & Hround & _).
           do 2 eexists. split; [ exact Hround | reflexivity ].
      * do 2 eexists. split; [ eapply round_undecodable; eauto | reflexivity ].
    + do 2 eexists. split; [ eapply round_rejected; eauto | reflexivity ].
  - destruct (retried cls) eqn:Hc.
    + destruct (Nat.eqb attempt (max_retries - 1)) eqn:Ha.
      * do 2 eexists. split; [ eapply round_transient_last; eauto | reflexivity ].
      * do 2 eexists. split; [ eapply round_transient; eauto | reflexivity ].
    + destruct (is_RequestError cls) eqn:Hr.
      * do 2 eexists.
        split; [ eapply round_other_request_error; eauto | reflexivity ].
      * do 2 eexists.
        split; [ eapply round_not_request_error; eauto | reflexivity ].
Qed.

Lemma sends_app (l1 l2 : list event) : sends (l1 ++ l2)%list = (sends l1 ++ sends l2)%list.
Proof.
  induction l1 as [ | [ rq' | s | line ] l1 IH ]; cbn; rewrite ?IH; reflexivity.
Qed.

(** The loop over any list of rounds only appends to the log, one call
    to the same request per round it runs. *)
Lemma rounds_append (after_msg : string) (rounds : list nat) (w : world) :
  exists o w' evs,
    for_each rounds (round API_KEY http_phrase client data)
      (raise (HTTPException 500 (JStr after_msg))) w = (o, w')
    /\ log w' = (log w ++ evs)%list
    /\ Forall (fun rq' => rq' = rq) (sends evs)
    /\ (List.length (sends evs) <= List.length rounds)%nat
    /\ (rounds <> [] -> exists rest, evs = ESend rq :: rest).
Proof.
  revert w. induction rounds as [ | i rest IH ]; intros w.
  - exists (Raise (HTTPException 500 (JStr after_msg))), w, [].
    cbn. rewrite app_nil_r. repeat split; auto. congruence.
  - rewrite for_each_cons.
    destruct (round_sends_once i w) as (o & evs & -> & Hs).
    destruct o as [ [ v | ] | e ].
    + do 3 eexists. split; [ reflexivity | ]. cbn [after_call log].
      split; [ reflexivity | ]. cbn. rewrite Hs.
      repeat split; eauto. cbn. lia.
    + destruct (IH (after_call w (ESend rq :: evs)))
        as (o' & w' & evs' & -> & Hlog & Hall & Hlen & _).
      exists o', w', ((ESend rq :: evs) ++ evs')%list.
      split; [ reflexivity | ]. cbn [after_call log] in Hlog.
      split; [ rewrite Hlog, app_assoc; reflexivity | ].
      rewrite sends_app. cbn. rewrite Hs. cbn.
      repeat split; eauto. cbn. lia.
    + do 3 eexists. split; [ reflexivity | ]. cbn [after_call log].
      split; [ reflexivity | ]. cbn. rewrite Hs.
      repeat split; eauto. cbn. lia.
Qed.

End Rounds.

(** ** The retry loop *)

Lemma call_wan_api_create_rounds (API_KEY : option string)
    (http_phrase : Z -> option string)
    (client : AsyncClient) (data : VideoGenerationRequest) :
  call_wan_api_create API_KEY http_phrase client data =
    for_each [0; 1; 2]%nat (round API_KEY http_phrase client data)
      (raise (HTTPException 500 (JStr "Unknown error during API call"))).
Proof. reflexivity. Qed.

(** The decisive round is the first one whenever the upstream answers at
    all, or fails in a way that is not retried. *)
Lemma first_round_decides (API_KEY : option string) (http_phrase : Z -> option string)
    (client : AsyncClient)
    (data : VideoGenerationRequest) (e : exn) (w : world) :
  round API_KEY http_phrase client data 0 init = (Raise e, w) ->
  run (call_wan_api_create API_KEY http_phrase client data) = (Raise e, w).
Proof.
  intros H. unfold run. rewrite call_wan_api_create_rounds, for_each_cons, H.
  reflexivity.
Qed.

(** **** C1 *)

(** C1. When every POST the Submission Executor attempts fails to connect
    or times out, it makes exactly three attempts, sleeps one second
    between consecutive attempts (and not after the last), and then raises
    the network failure, HTTP 500 with the last failure's message; the two
    earlier failures are only printed. *)
Theorem C1_three_attempts_then_network_failure
    (API_KEY : option string) (http_phrase : Z -> option string)
    (client : AsyncClient)
    (data : VideoGenerationRequest) :
  let rq := create_request API_KEY data in
  (forall n, (n < max_retries)%nat -> transient (client n rq)) ->
  let r := run (call_wan_api_create API_KEY http_phrase client data) in
  fst r = Raise (HTTPException 500
            (JStr ("Network Error: " ++ failure_message (client 2%nat rq))))
  /\ schedule (log (snd r)) =
       [ ESend rq; ESleep 1; ESend rq; ESleep 1; ESend rq ]
  /\ List.length (sends (log (snd r))) = 3%nat
  /\ calls (snd r) = 3%nat
  /\ exists last_line,
       printed (log (snd r)) =
         [ "Attempt 1 failed with error: " ++ failure_message (client 0%nat rq);
           "Attempt 2 failed with error: " ++ failure_message (client 1%nat rq);
           "Attempt 3 failed with error: " ++ failure_message (client 2%nat rq);
           last_line ].
Proof.
  intros rq H r.
  assert (H0 := H 0%nat). assert (H1 := H 1%nat). assert (H2 := H 2%nat).
  unfold max_retries in H0, H1, H2.
  specialize (H0 ltac:(lia)). specialize (H1 ltac:(lia)). specialize (H2 ltac:(lia)).
  destruct (client 0%nat rq) as [ r0 | c0 m0 ] eqn:E0; [ contradiction | ].
  destruct (client 1%nat rq) as [ r1 | c1 m1 ] eqn:E1; [ contradiction | ].
  destruct (client 2%nat rq) as [ r2 | c2 m2 ] eqn:E2; [ contradiction | ].
  cbn [transient] in H0, H1, H2.
  subst r. unfold run.
  rewrite call_wan_api_create_rounds.
  rewrite for_each_cons.
  erewrite round_transient; [ | exact E0 | exact H0 | reflexivity ].
  rewrite for_each_cons.
  erewrite round_transient; [ | exact E1 | exact H1 | reflexivity ].
  rewrite for_each_cons.
  erewrite round_transient_last; [ | exact E2 | exact H2 | reflexivity ].
  cbn. repeat split. eexists. reflexivity.
Qed.

(** A run of C1: the upstream refuses every connection. *)
Lemma C1_witness :
  let r := run (call_wan_api_create (Some "sk-1") std_phrase unreachable sample_request) in
  fst r = Raise (HTTPException 500 (JStr "Network Error: refused"))
  /\ schedule (log (snd r)) =
       [ ESend (create_request (Some "sk-1") sample_request); ESleep 1;
         ESend (create_request (Some "sk-1") sample_request); ESleep 1;
         ESend (create_request (Some "sk-1") sample_request) ].
Proof.
  intros r.
  destruct (C1_three_attempts_then_network_failure
              (Some "sk-1") std_phrase unreachable sample_request)
    as (Hr & Hs & _).
  - intros n _. reflexivity.
  - split; [ exact Hr | exact Hs ].
Defined.

(** **** C2 *)

(** Whatever the body, a response with a status other than 200 ends the
    submission in its first round: one call, no sleep. *)
Lemma rejected_after_one_attempt (API_KEY : option string)
    (http_phrase : Z -> option string)
    (client : AsyncClient) (data : VideoGenerationRequest) (r : response) :
  let rq := create_request API_KEY data in
  client 0%nat rq = Responded r ->
  status_code r <> 200 ->
  run (call_wan_api_create API_KEY http_phrase client data) =
    (Raise (rejection http_phrase r),
     {| calls := 1;
        log := [ ESend rq; EPrint ("API Error Response: " ++ text r) ] |}).
Proof.
  intros rq H Hs. apply first_round_decides.
  erewrite round_rejected; [ reflexivity | exact H | exact Hs ].
Qed.

(** C2, amended. When the first POST is answered with a status other than
    200, the Submission Executor stops after that one attempt, without
    sleeping or retrying, and raises; when the body decodes as JSON to a
    value other than null, what it raises is the HTTPException carrying the
    upstream's status code and the decoded body as detail. *)
Theorem C2_rejection_surfaces_status_and_body
    (API_KEY : option string) (http_phrase : Z -> option string)
    (client : AsyncClient) (data : VideoGenerationRequest) (r : response) :
  let rq := create_request API_KEY data in
  client 0%nat rq = Responded r ->
  status_code r <> 200 ->
  let out := run (call_wan_api_create API_KEY http_phrase client data) in
  (exists e, fst out = Raise e)
  /\ schedule (log (snd out)) = [ ESend rq ]
  /\ calls (snd out) = 1%nat
  /\ (forall body,
        json_body r = Some body ->
        body <> JNull ->
        fst out = Raise (HTTPException (status_code r) body)).
Proof.
  intros rq H Hs out. subst out.
  rewrite (rejected_after_one_attempt API_KEY http_phrase client data r H Hs).
  cbn [fst snd log calls schedule].
  split; [ eexists; reflexivity | ].
  split; [ reflexivity | ]. split; [ reflexivity | ].
  intros body Hb Hnull. unfold rejection. rewrite Hb.
  destruct body; try reflexivity. congruence.
Qed.

(** A run of C2: the upstream answers 400 with a JSON error body. *)
Lemma C2_witness :
  let body := JObj [ ("code", JStr "InvalidParameter");
                     ("message", JStr "size is not supported") ] in
  let r := {| status_code := 400; text := "{...}"; json_body := Some body;
              json_error := InvalidJSON |} in
  let out := run (call_wan_api_create (Some "sk-1") std_phrase (always r)
                    sample_request) in
  fst out = Raise (HTTPException 400 body)
  /\ calls (snd out) = 1%nat.
Proof.
  intros body r out.
  destruct (C2_rejection_surfaces_status_and_body
              (Some "sk-1") std_phrase (always r) sample_request r)
    as (_ & _ & Hc & Hdetail).
  - reflexivity.
  - cbn. lia.
  - split; [ | exact Hc ].
    apply Hdetail; [ reflexivity | discriminate ].
Defined.

(** C2 as stated fails on two kinds of body.  A 502 whose body is an HTML
    page: [response.json()] raises while the error is being built, so what
    comes out is neither the upstream's 502 nor its body.  A 400 whose
    body is the JSON value null: the detail of the HTTPException is not
    the body but the phrase of the status.  In both the attempt is still
    the only one. *)
Lemma C2_counterexample :
  let html := {| status_code := 502;
                 text := "<html><body>Bad Gateway</body></html>";
                 json_body := None;
                 json_error := InvalidJSON |} in
  let null := {| status_code := 400; text := "null";
                 json_body := Some JNull;
                 json_error := InvalidJSON |} in
  let submit r :=
    run (call_wan_api_create (Some "sk-1") std_phrase (always r)
           sample_request) in
  fst (submit html) = Raise JSONDecodeError
  /\ (forall detail, fst (submit html) <> Raise (HTTPException 502 detail))
  /\ calls (snd (submit html)) = 1%nat
  /\ fst (submit null) = Raise (HTTPException 400 (JStr "Bad Request"))
  /\ fst (submit null) <> Raise (HTTPException 400 JNull)
  /\ calls (snd (submit null)) = 1%nat.
Proof.
  cbn. repeat split; discriminate.
Qed.

(** **** C6 *)

(** C6. When the first two POSTs fail to connect or time out and the third
    is answered 200 with a body holding [output.task_id], the Submission
    Executor returns that task identifier; no exception is raised, and the
    three calls are separated by two one-second sleeps. *)
Theorem C6_third_attempt_recovers
    (API_KEY : option string) (http_phrase : Z -> option string)
    (client : AsyncClient)
    (data : VideoGenerationRequest) (r : response) (body task_id : json) :
  let rq := create_request API_KEY data in
  transient (client 0%nat rq) ->
  transient (client 1%nat rq) ->
  client 2%nat rq = Responded r ->
  status_code r = 200 ->
  json_body r = Some body ->
  task_id_of body = Some task_id ->
  let out := run (call_wan_api_create API_KEY http_phrase client data) in
  fst out = Return task_id
  /\ schedule (log (snd out)) =
       [ ESend rq; ESleep 1; ESend rq; ESleep 1; ESend rq ]
  /\ calls (snd out) = 3%nat.
Proof.
  intros rq H0 H1 E2 Hs Hb Ht out. subst out.
  destruct (client 0%nat rq) as [ r0 | c0 m0 ] eqn:E0; [ contradiction | ].
  destruct (client 1%nat rq) as [ r1 | c1 m1 ] eqn:E1; [ contradiction | ].
  cbn [transient] in H0, H1.
  unfold run. rewrite call_wan_api_create_rounds.
  rewrite for_each_cons.
  erewrite round_transient; [ | exact E0 | exact H0 | reflexivity ].
  rewrite for_each_cons.
  erewrite round_transient; [ | exact E1 | exact H1 | reflexivity ].
  rewrite for_each_cons.
  erewrite round_task_id; [ | exact E2 | exact Hs | exact Hb | exact Ht ].
  cbn. auto.
Qed.

(** A run of C6. *)
Lemma C6_witness :
  let body := JObj [ ("request_id", JStr "r-1");
                     ("output", JObj [ ("task_id", JStr "t-42");
                                       ("task_status", JStr "PENDING") ]) ] in
  let r := {| status_code := 200; text := "{...}"; json_body := Some body;
              json_error := InvalidJSON |} in
  let out := run (call_wan_api_create (Some "sk-1") std_phrase (flaky_then r) sample_request) in
  fst out = Return (JStr "t-42")
  /\ calls (snd out) = 3%nat.
Proof.
  intros body r out.
  destruct (C6_third_attempt_recovers
              (Some "sk-1") std_phrase (flaky_then r) sample_request r body (JStr "t-42"))
    as (Hr & _ & Hc); try reflexivity.
  split; [ exact Hr | exact Hc ].
Defined.

(** **** C7 *)




(** ** Submissions in general *)

(** Whatever the upstream does, a submission sends between one and three
    requests, all of them the same POST carrying the built payload, and the
    first thing it does is send it. *)
Lemma submission_sends (API_KEY : option string) (http_phrase : Z -> option string)
    (client : AsyncClient)
    (data : VideoGenerationRequest) :
  let rq := create_request API_KEY data in
  let out := run (call_wan_api_create API_KEY http_phrase client data) in
  (exists rest, log (snd out) = ESend rq :: rest)
  /\ Forall (fun rq' => rq' = rq) (sends (log (snd out)))
  /\ (1 <= List.length (sends (log (snd out))) <= 3)%nat.
Proof.
  intros rq out. subst out. unfold run. rewrite call_wan_api_create_rounds.
  destruct (rounds_append API_KEY http_phrase client data "Unknown error during API call"
              [0; 1; 2]%nat init)
    as (o & w & evs & -> & Hlog & Hall & Hlen & Hfirst).
  destruct (Hfirst ltac:(discriminate)) as (rest & ->).
  cbn [fst snd]. rewrite Hlog. cbn [init log app].
  split; [ eauto | ]. split; [ exact Hall | ].
  cbn in Hlen |- *. lia.
Qed.

(** **** C5 *)

(** With a credential configured a submission does go out: the handler's
    log is the Submission Executor's. *)
Lemma submit_with_credential (API_KEY : option string) (http_phrase : Z -> option string)
    (client : AsyncClient)
    (request : VideoGenerationRequest) :
  key_missing API_KEY = false ->
  exists rest,
    log (snd (run (generate_video API_KEY http_phrase request {| http_client := client |})))
      = ESend (create_request API_KEY request) :: rest.
Proof.
  intros Hk.
  destruct (submission_sends API_KEY http_phrase client request) as ((rest & Hlog) & _).
  exists rest. rewrite <- Hlog.
  unfold run, generate_video, bind. rewrite Hk. cbn [ret http_client].
  destruct (call_wan_api_create API_KEY http_phrase client request init) as [ [ v | e ] w ];
    reflexivity.
Qed.

(** C5. With no credential configured (the variable unset, or set to the
    empty string) [generate_video] raises the configuration error, HTTP 500
    "API Key not configured on server.", and the world is untouched:
    nothing was sent, slept or printed.  The check is what keeps the call
    from going out: with a credential the first thing logged is the POST. *)
Theorem C5_missing_credential_fails_before_any_call
    (http_phrase : Z -> option string)
    (client : AsyncClient) (request : VideoGenerationRequest) :
  let err := HTTPException 500 (JStr "API Key not configured on server.") in
  let req := {| http_client := client |} in
  let unset := run (generate_video None http_phrase request req) in
  let empty := run (generate_video (Some "") http_phrase request req) in
  fst unset = Raise err
  /\ sends (log (snd unset)) = []
  /\ log (snd unset) = []
  /\ calls (snd unset) = 0%nat
  /\ fst empty = Raise err
  /\ sends (log (snd empty)) = []
  /\ log (snd empty) = []
  /\ calls (snd empty) = 0%nat
  /\ (forall key,
        key_missing (Some key) = false ->
        exists rest,
          log (snd (run (generate_video (Some key) http_phrase request req)))
            = ESend (create_request (Some key) request) :: rest).
Proof.
  intros err req unset empty.
  repeat split.
  intros key Hk. apply submit_with_credential. exact Hk.
Qed.

(** **** C4 *)

(** C4. The payload of a generation request holds exactly the fields
    [model], [input.prompt], [input.negative_prompt], [parameters.size],
    [parameters.duration], [parameters.prompt_extend] and
    [parameters.audio], each with the request's value.  An absent
    negative prompt is carried as null and a supplied one as that str, so
    the empty string stays apart from absence; the whole request can be
    read back from the payload, and this payload is what every POST of
    the submission carries. *)
Theorem C4_payload_maps_every_field (data : VideoGenerationRequest) :
  let p := build_payload data in
  path ["input"; "prompt"] p = Some (JStr (prompt data))
  /\ path ["input"; "negative_prompt"] p
       = Some (match negative_prompt data with
               | None => JNull
               | Some s => JStr s
               end)
  /\ path ["parameters"; "size"] p = Some (JStr (size data))
  /\ path ["parameters"; "duration"] p = Some (JInt (duration data))
  /\ path ["parameters"; "prompt_extend"] p = Some (JBool (prompt_extend data))
  /\ path ["parameters"; "audio"] p = Some (JBool (audio data))
  /\ fields p = ["model"; "input"; "parameters"]
  /\ option_map fields (path ["input"] p) = Some ["prompt"; "negative_prompt"]
  /\ option_map fields (path ["parameters"] p)
       = Some ["size"; "duration"; "prompt_extend"; "audio"]
  /\ (path ["input"; "negative_prompt"] p = Some JNull
       <-> negative_prompt data = None)
  /\ (path ["input"; "negative_prompt"] p = Some (JStr "")
       <-> negative_prompt data = Some "")
  /\ (forall data', build_payload data' = p -> data' = data)
  /\ (forall API_KEY http_phrase client,
        Forall (fun rq => rq_json rq = Some p)
          (sends (log (snd (run (call_wan_api_create API_KEY http_phrase client data)))))).
Proof.
  intros p. subst p. destruct data as [ pr np sz du au pe ].
  repeat split; try reflexivity; try (destruct np; cbn; congruence).
  - intros [ pr' np' sz' du' au' pe' ]. unfold build_payload. cbn.
    intros H. injection H as -> Hnp -> -> -> ->.
    destruct np, np'; cbn in Hnp; congruence.
  - intros API_KEY http_phrase client.
    destruct (submission_sends API_KEY http_phrase client
                {| prompt := pr; negative_prompt := np; size := sz;
                   duration := du; audio := au; prompt_extend := pe |})
      as (_ & Hall & _).
    eapply Forall_impl; [ | exact Hall ].
    intros rq ->. reflexivity.
Qed.

(** ** Polling *)

Section Polling.

Variable API_KEY : option string.
Variable py_repr : json -> string.
Variable client : AsyncClient.
Variable task_id : string.

Let rq := status_request API_KEY task_id.
Let req := {| http_client := client |}.

Ltac run_poll H :=
  unfold run, check_status, call_wan_api_status, try_except, client_get,
    send, bind, http_client, req;
  change
    {| rq_method := GET; rq_url := status_url task_id;
       rq_headers := status_headers API_KEY; rq_json := None |} with rq;
  cbn [init calls log app]; rewrite H.

Lemma poll_transport_failure cls msg :
  client 0%nat rq = Failed cls msg ->
  run (check_status API_KEY py_repr task_id req) =
    if is_RequestError cls
    then (Raise (HTTPException 500 (JStr msg)),
          {| calls := 1;
             log := [ ESend rq; EPrint ("Status Check Network Error: " ++ msg) ] |})
    else (Raise (HttpxError cls msg), {| calls := 1; log := [ ESend rq ] |}).
Proof.
  intros H. run_poll H. destruct (is_RequestError cls); reflexivity.
Qed.

Lemma poll_undecodable r :
  client 0%nat rq = Responded r ->
  json_body r = None ->
  run (check_status API_KEY py_repr task_id req) =
    (Raise (decode_exn (json_error r)),
     {| calls := 1; log := [ ESend rq ] |}).
Proof.
  intros H Hb. run_poll H. unfold response_json. rewrite Hb.
  destruct (json_error r); reflexivity.
Qed.

Lemma poll_object_shaped r body :
  client 0%nat rq = Responded r ->
  json_body r = Some body ->
  object_shaped body ->
  run (check_status API_KEY py_repr task_id req) =
    (Return (spec_status_report (py_format py_repr) body),
     {| calls := 1; log := [ ESend rq ] |}).
Proof.
  intros H Hb [ Hobj Hout ]. run_poll H. unfold response_json. rewrite Hb.
  destruct body as [ | | | | | | d ]; try contradiction.
  unfold spec_status_report, path, member, py_eq_str in *.
  cbn [ret lift py_get].
  destruct (Dict.lookup "usage" d) as [ usage | ];
    (destruct (Dict.lookup "output" d) as [ output | ];
     [ destruct output as [ | | | | | | o ]; try contradiction;
       cbn [py_get or_default];
       destruct (Dict.lookup "task_status" o) as [ status | ];
       cbn [or_default]
     | cbn ];
     try reflexivity;
     try (destruct (is_str "SUCCEEDED" status);
          [ destruct (Dict.lookup "video_url" o); reflexivity | ];
          destruct (is_str "FAILED" status);
          [ destruct (Dict.lookup "message" o); reflexivity | ];
          reflexivity)).
Qed.

Lemma poll_not_object_shaped r body :
  client 0%nat rq = Responded r ->
  json_body r = Some body ->
  ~ object_shaped body ->
  run (check_status API_KEY py_repr task_id req) =
    (Raise AttributeError, {| calls := 1; log := [ ESend rq ] |}).
Proof.
  intros H Hb Hn. run_poll H. unfold response_json. rewrite Hb.
  unfold object_shaped, is_object, member in Hn.
  destruct body as [ | | | | | | d ]; try reflexivity.
  cbn [ret lift py_get].
  destruct (Dict.lookup "output" d) as [ output | ]; [ | tauto ].
  destruct output as [ | | | | | | o ]; try reflexivity.
  tauto.
Qed.

Lemma object_shaped_dec (body : json) :
  {object_shaped body} + {~ object_shaped body}.
Proof.
  unfold object_shaped, is_object, member.
  destruct body as [ | | | | | | d ]; try (right; tauto).
  destruct (Dict.lookup "output" d) as [ output | ]; [ | left; tauto ].
  destruct output; (left; tauto) || (right; tauto).
Defined.

(** What a poll comes to, by what the upstream answers. *)
Lemma poll_returns report :
  fst (run (check_status API_KEY py_repr task_id req)) = Return report ->
  exists r body,
    client 0%nat rq = Responded r
    /\ json_body r = Some body
    /\ object_shaped body
    /\ report = spec_status_report (py_format py_repr) body.
Proof.
  destruct (client 0%nat rq) as [ r | cls msg ] eqn:E.
  - destruct (json_body r) as [ body | ] eqn:Hb.
    + destruct (object_shaped_dec body) as [ Hs | Hs ].
      * rewrite (poll_object_shaped r body E Hb Hs). cbn.
        intros [= <-]. eauto 6.
      * rewrite (poll_not_object_shaped r body E Hb Hs). discriminate.
    + rewrite (poll_undecodable r E Hb). discriminate.
  - rewrite (poll_transport_failure cls msg E).
    destruct (is_RequestError cls); discriminate.
Qed.

(** Every poll sends the one GET, whatever the credential and whatever
    comes back. *)
Lemma poll_sends :
  sends (log (snd (run (check_status API_KEY py_repr task_id req)))) = [ rq ]
  /\ hd_error (log (snd (run (check_status API_KEY py_repr task_id req))))
     = Some (ESend rq).
Proof.
  destruct (client 0%nat rq) as [ r | cls msg ] eqn:E.
  - destruct (json_body r) as [ body | ] eqn:Hb.
    + destruct (object_shaped_dec body) as [ Hs | Hs ].
      * rewrite (poll_object_shaped r body E Hb Hs). auto.
      * rewrite (poll_not_object_shaped r body E Hb Hs). auto.
    + rewrite (poll_undecodable r E Hb). auto.
  - rewrite (poll_transport_failure cls msg E).
    destruct (is_RequestError cls); auto.
Qed.

End Polling.

(** ** The report *)

Lemma is_str_true (k : string) (v : json) : is_str k v = true <-> v = JStr k.
Proof.
  destruct v; cbn; try (split; [ discriminate | discriminate ]).
  rewrite String.eqb_eq. split; [ intros ->; reflexivity | intros [= ->]; reflexivity ].
Qed.

Lemma is_str_false (k : string) (v : json) : is_str k v = false <-> v <> JStr k.
Proof.
  rewrite <- is_str_true. destruct (is_str k v); split; congruence.
Qed.

(** The spec's report, field by field. *)
Lemma spec_status_report_fields (fmt : json -> string) (body : json) :
  let status := or_default (path ["output"; "task_status"] body) (JStr "UNKNOWN") in
  let report := spec_status_report fmt body in
  fields report = ["status"; "progress_msg"; "video_url"; "usage"]
  /\ member "status" report = Some status
  /\ member "usage" report = Some (or_default (member "usage" body) (JObj []))
  /\ (status = JStr "SUCCEEDED" ->
      member "video_url" report
        = Some (or_default (path ["output"; "video_url"] body) JNull)
      /\ member "progress_msg" report = Some (JStr "Completed"))
  /\ (status = JStr "FAILED" ->
      member "progress_msg" report
        = Some (JStr ("Failed: "
                      ++ fmt (or_default (path ["output"; "message"] body)
                                         (JStr "Unknown error"))))
      /\ member "video_url" report = Some JNull)
  /\ (status <> JStr "SUCCEEDED" -> status <> JStr "FAILED" ->
      member "progress_msg" report = Some (JStr "Processing...")
      /\ member "video_url" report = Some JNull).
Proof.
  intros status report. subst report. unfold spec_status_report.
  fold status.
  destruct (is_str "SUCCEEDED" status) eqn:Hs;
    [ | destruct (is_str "FAILED" status) eqn:Hf ].
  - apply is_str_true in Hs.
    repeat split; try reflexivity; intros; congruence.
  - apply is_str_false in Hs. apply is_str_true in Hf.
    repeat split; try reflexivity; intros; congruence.
  - apply is_str_false in Hs. apply is_str_false in Hf.
    repeat split; try reflexivity; intros; congruence.
Qed.

(** In the spec's report a video url is only there on SUCCEEDED, and a
    message that begins "Failed: " only on FAILED. *)
Lemma spec_status_report_invariant (fmt : json -> string) (body : json) :
  let report := spec_status_report fmt body in
  (forall url, member "video_url" report = Some url -> url <> JNull ->
     member "status" report = Some (JStr "SUCCEEDED"))
  /\ (forall msg, member "progress_msg" report = Some (JStr msg) ->
       String.prefix "Failed: " msg = true ->
       member "status" report = Some (JStr "FAILED")).
Proof.
  intros report. subst report. unfold spec_status_report.
  set (status := or_default _ (JStr "UNKNOWN")).
  destruct (is_str "SUCCEEDED" status) eqn:Hs;
    [ | destruct (is_str "FAILED" status) eqn:Hf ]; cbn.
  - apply is_str_true in Hs. rewrite Hs.
    split; [ reflexivity | intros msg [= <-]; discriminate ].
  - apply is_str_true in Hf. rewrite Hf.
    split; [ intros url [= <-]; congruence | reflexivity ].
  - split; [ intros url [= <-]; congruence | intros msg [= <-]; discriminate ].
Qed.

(** **** C3 *)

(** C3, amended. For every get-task body that is a JSON object whose
    [output], if present, is a JSON object, the Status Translator returns a
    report with the fields status, progress_msg, video_url and usage:
    status is [output.task_status] or "UNKNOWN" when absent; on SUCCEEDED
    video_url is [output.video_url] and progress_msg is "Completed"; on
    FAILED progress_msg is "Failed: " followed by [output.message], or by
    "Unknown error" when absent, and video_url is null; on any other status
    progress_msg is "Processing..." and video_url is null. *)
Theorem C3_status_translation
    (API_KEY : option string) (py_repr : json -> string)
    (client : AsyncClient) (task_id : string) (r : response) (body : json) :
  client 0%nat (status_request API_KEY task_id) = Responded r ->
  json_body r = Some body ->
  object_shaped body ->
  let out := run (check_status API_KEY py_repr task_id
                    {| http_client := client |}) in
  let status := or_default (path ["output"; "task_status"] body) (JStr "UNKNOWN") in
  exists report,
    fst out = Return report
    /\ fields report = ["status"; "progress_msg"; "video_url"; "usage"]
    /\ member "status" report = Some status
    /\ member "usage" report = Some (or_default (member "usage" body) (JObj []))
    /\ (status = JStr "SUCCEEDED" ->
        member "video_url" report
          = Some (or_default (path ["output"; "video_url"] body) JNull)
        /\ member "progress_msg" report = Some (JStr "Completed"))
    /\ (status = JStr "FAILED" ->
        member "progress_msg" report
          = Some (JStr ("Failed: "
                        ++ py_format py_repr
                             (or_default (path ["output"; "message"] body)
                                         (JStr "Unknown error"))))
        /\ member "video_url" report = Some JNull)
    /\ (status <> JStr "SUCCEEDED" -> status <> JStr "FAILED" ->
        member "progress_msg" report = Some (JStr "Processing...")
        /\ member "video_url" report = Some JNull).
Proof.
  intros H Hb Hs out status. subst out.
  rewrite (poll_object_shaped API_KEY py_repr client task_id r body H Hb Hs).
  eexists. split; [ reflexivity | ].
  apply spec_status_report_fields.
Qed.

(** A run of C3: the failed task of the spec's example. *)
Lemma C3_witness :
  let body := JObj [ ("output", JObj [ ("task_status", JStr "FAILED");
                                       ("message", JStr "quota exceeded") ]) ] in
  let r := {| status_code := 200; text := "{...}"; json_body := Some body;
              json_error := InvalidJSON |} in
  let out := run (check_status (Some "sk-1") repr_unused "t-42"
                    {| http_client := always r |}) in
  exists report,
    fst out = Return report
    /\ member "progress_msg" report = Some (JStr "Failed: quota exceeded")
    /\ member "video_url" report = Some JNull.
Proof.
  intros body r out.
  destruct (C3_status_translation (Some "sk-1") repr_unused (always r) "t-42" r body)
    as (report & Hr & _ & _ & _ & _ & Hfailed & _).
  - reflexivity.
  - reflexivity.
  - split; exact I.
  - exists report. split; [ exact Hr | ]. apply Hfailed. reflexivity.
Defined.

(** C3 as stated fails on bodies that are not object-shaped.  A body whose
    [output] is null has no [output.task_status], yet no report with
    status "UNKNOWN" comes out: [output.get] raises AttributeError.  So
    does [result.get] on a body that is a JSON array. *)
Lemma C3_counterexample :
  let null_output := JObj [ ("request_id", JStr "r-1"); ("output", JNull) ] in
  let poll body :=
    run (check_status (Some "sk-1") repr_unused "t-42"
           {| http_client :=
                always {| status_code := 200; text := "..."; json_body := Some body;
                          json_error := InvalidJSON |} |}) in
  path ["output"; "task_status"] null_output = None
  /\ fst (poll null_output) = Raise AttributeError
  /\ fst (poll (JArr [])) = Raise AttributeError.
Proof. repeat split. Qed.

(** The three translations the spec lists as examples. *)
Example translate_succeeded :
  fst (run (check_status (Some "sk-1") repr_unused "t-42"
              {| http_client :=
                   always {| status_code := 200; text := "...";
                             json_body := Some succeeded_body;
                             json_error := InvalidJSON |} |})) =
    Return (JObj [ ("status", JStr "SUCCEEDED");
                   ("progress_msg", JStr "Completed");
                   ("video_url", JStr "http://x/v.mp4");
                   ("usage", JObj []) ]).
Proof. reflexivity. Qed.

Example translate_failed :
  let body := JObj [ ("output", JObj [ ("task_status", JStr "FAILED");
                                       ("message", JStr "quota exceeded") ]) ] in
  fst (run (check_status (Some "sk-1") repr_unused "t-42"
              {| http_client :=
                   always {| status_code := 200; text := "...";
                             json_body := Some body;
                             json_error := InvalidJSON |} |})) =
    Return (JObj [ ("status", JStr "FAILED");
                   ("progress_msg", JStr "Failed: quota exceeded");
                   ("video_url", JNull);
                   ("usage", JObj []) ]).
Proof. reflexivity. Qed.

Example translate_status_absent :
  let body := JObj [ ("output", JObj []) ] in
  fst (run (check_status (Some "sk-1") repr_unused "t-42"
              {| http_client :=
                   always {| status_code := 200; text := "...";
                             json_body := Some body;
                             json_error := InvalidJSON |} |})) =
    Return (JObj [ ("status", JStr "UNKNOWN");
                   ("progress_msg", JStr "Processing...");
                   ("video_url", JNull);
                   ("usage", JObj []) ]).
Proof. reflexivity. Qed.

(** **** C8 *)

(** C8. In every report [check_status] returns, a non-null video_url comes
    with status "SUCCEEDED", and a progress_msg beginning "Failed: " comes
    with status "FAILED". *)
Theorem C8_report_invariant
    (API_KEY : option string) (py_repr : json -> string)
    (client : AsyncClient) (task_id : string) (report : json) :
  fst (run (check_status API_KEY py_repr task_id {| http_client := client |}))
    = Return report ->
  (forall url, member "video_url" report = Some url -> url <> JNull ->
     member "status" report = Some (JStr "SUCCEEDED"))
  /\ (forall msg, member "progress_msg" report = Some (JStr msg) ->
       String.prefix "Failed: " msg = true ->
       member "status" report = Some (JStr "FAILED")).
Proof.
  intros H.
  destruct (poll_returns API_KEY py_repr client task_id report H)
    as (r & body & _ & _ & _ & ->).
  apply spec_status_report_invariant.
Qed.

(** A run of C8: the report of a finished task. *)
Lemma C8_witness :
  let r := {| status_code := 200; text := "{...}";
              json_body := Some succeeded_body;
              json_error := InvalidJSON |} in
  let report := JObj [ ("status", JStr "SUCCEEDED");
                       ("progress_msg", JStr "Completed");
                       ("video_url", JStr "http://x/v.mp4");
                       ("usage", JObj []) ] in
  fst (run (check_status (Some "sk-1") repr_unused "t-42"
              {| http_client := always r |})) = Return report
  /\ member "status" report = Some (JStr "SUCCEEDED").
Proof.
  intros r report.
  assert (H : fst (run (check_status (Some "sk-1") repr_unused "t-42"
                          {| http_client := always r |})) = Return report)
    by reflexivity.
  split; [ exact H | ].
  destruct (C8_report_invariant (Some "sk-1") repr_unused (always r) "t-42"
              report H) as (Hurl & _).
  apply (Hurl (JStr "http://x/v.mp4")); [ reflexivity | discriminate ].
Defined.

(** **** C9 *)




(** **** C10 *)

(** C10. A poll never looks at the credential.  Whatever [API_KEY] is, unset
    included, [check_status] starts by sending the GET to
    [BASE_URL/tasks/{task_id}] and sends nothing else; it returns the
    report whenever the upstream answers with an object-shaped body, and
    when it raises, the upstream failed at transport level, or its body did
    not decode, or was not object-shaped.  The fail-fast check on a missing
    credential is in [generate_video] only. *)
Theorem C10_poll_never_checks_credential
    (API_KEY : option string) (py_repr : json -> string)
    (client : AsyncClient) (task_id : string) :
  let rq := status_request API_KEY task_id in
  let out := run (check_status API_KEY py_repr task_id
                    {| http_client := client |}) in
  rq_method rq = GET
  /\ rq_url rq = BASE_URL ++ "/tasks/" ++ task_id
  /\ hd_error (log (snd out)) = Some (ESend rq)
  /\ sends (log (snd out)) = [ rq ]
  /\ (forall r body,
        client 0%nat rq = Responded r ->
        json_body r = Some body ->
        object_shaped body ->
        fst out = Return (spec_status_report (py_format py_repr) body))
  /\ (forall e,
        fst out = Raise e ->
        (exists cls msg, client 0%nat rq = Failed cls msg)
        \/ (exists r, client 0%nat rq = Responded r
                      /\ (json_body r = None
                          \/ exists body, json_body r = Some body
                                          /\ ~ object_shaped body)))
  /\ (forall http_phrase request,
        key_missing API_KEY = true ->
        run (generate_video API_KEY http_phrase request
               {| http_client := client |}) =
          (Raise (HTTPException 500 (JStr "API Key not configured on server.")),
           init)).
Proof.
  intros rq out. subst out.
  destruct (poll_sends API_KEY py_repr client task_id) as (Hsends & Hhd).
  repeat split; auto;
    try (intros http_phrase request Hk; unfold run, generate_video, bind;
         rewrite Hk; reflexivity).
  - intros r body H Hb Hs.
    rewrite (poll_object_shaped API_KEY py_repr client task_id r body H Hb Hs).
    reflexivity.
  - intros e He. fold rq.
    destruct (client 0%nat rq) as [ r | cls msg ] eqn:E; [ right | left; eauto ].
    exists r. split; [ reflexivity | ].
    destruct (json_body r) as [ body | ] eqn:Hb; [ right | left; reflexivity ].
    exists body. split; [ reflexivity | ].
    intros Hs.
    rewrite (poll_object_shaped API_KEY py_repr client task_id r body E Hb Hs)
      in He.
    discriminate.
Qed.

(** With no credential at all the poll still goes out, with the header
    "Bearer None", and brings back the report. *)
Example poll_without_credential :
  let r := {| status_code := 200; text := "{...}";
              json_body := Some succeeded_body;
              json_error := InvalidJSON |} in
  run (check_status None repr_unused "t-42" {| http_client := always r |}) =
    (Return (JObj [ ("status", JStr "SUCCEEDED");
                    ("progress_msg", JStr "Completed");
                    ("video_url", JStr "http://x/v.mp4");
                    ("usage", JObj []) ]),
     {| calls := 1;
        log := [ ESend {| rq_method := GET;
                          rq_url := "https://dashscope-intl.aliyuncs.com/api/v1/tasks/t-42";
                          rq_headers := [ ("Authorization", "Bearer None") ];
                          rq_json := None |} ] |}).
Proof. reflexivity. Qed.

(** * Beyond the listed claims: every path of the two handlers *)

(** ** Every round is one row of the case table *)

Lemma round_cases (API_KEY : option string) (http_phrase : Z -> option string)
    (client : AsyncClient)
    (data : VideoGenerationRequest) (attempt : nat) (w : world) :
  let rq := create_request API_KEY data in
  exists o evs,
    round API_KEY http_phrase client data attempt w = (o, after_call w (ESend rq :: evs))
    /\ round_step http_phrase attempt (client (calls w) rq) o evs.
Proof.
  intros rq.
  destruct (client (calls w) rq) as [ r | cls msg ] eqn:E.
  - destruct (Z.eq_dec (status_code r) 200) as [ Hs | Hs ].
    + destruct (json_body r) as [ body | ] eqn:Hb.
      * destruct (task_id_of body) as [ task_id | ] eqn:Ht.
        -- do 2 eexists. split; [ eapply round_task_id; eauto | ].
           eapply step_task_id; eauto.
        -- destruct (round_no_task_id API_KEY http_phrase client data
                       attempt w r body E Hs Hb Ht)
             as (e & Hround & Hcases & Hshaped).
           do 2 eexists. split; [ exact Hround | ].
           eapply step_no_task_id; eauto.
      * do 2 eexists. split; [ eapply round_undecodable; eauto | ].
        apply step_undecodable; auto.
    + do 2 eexists. split; [ eapply round_rejected; eauto | ].
      apply step_rejected; auto.
  - destruct (retried cls) eqn:Hc.
    + destruct (Nat.eqb attempt (max_retries - 1)) eqn:Ha.
      * do 2 eexists. split; [ eapply round_transient_last; eauto | ].
        apply step_exhausted; auto.
      * do 2 eexists. split; [ eapply round_transient; eauto | ].
        apply step_retry; auto.
    + destruct (is_RequestError cls) eqn:Hr.
      * do 2 eexists. split; [ eapply round_other_request_error; eauto | ].
        apply step_request_error; auto.
      * do 2 eexists. split; [ eapply round_not_request_error; eauto | ].
        apply step_not_caught; auto.
Qed.

(** Run the next round of the loop in the goal and split on its row. *)
Ltac next_round :=
  rewrite for_each_cons;
  match goal with
  | |- context [ round ?K ?P ?c ?d ?a ?w ] =>
      let o := fresh "o" in
      let evs := fresh "evs" in
      let Hround := fresh "Hround" in
      let Hstep := fresh "Hstep" in
      destruct (round_cases K P c d a w) as (o & evs & Hround & Hstep);
      rewrite Hround; clear Hround;
      cbn [after_call calls log init] in Hstep;
      inversion Hstep; subst; clear Hstep;
      try match goal with
          | H : Nat.eqb _ _ = _ |- _ => vm_compute in H; discriminate H
          end;
      cbn [fst snd]
  end.

(** The last round never falls through to the code after the loop. *)
Lemma last_round_never_continues (http_phrase : Z -> option string)
    (rs : transport_result) (o : outcome (option json)) (evs : list event) :
  round_step http_phrase 2 rs o evs -> o <> Return None.
Proof.
  intros H. inversion H; subst; try discriminate.
Qed.

(** **** X1: between one and three POSTs, always the same one *)

(** X1. Whatever the upstream does, [call_wan_api_create] starts by sending
    its POST, sends at least one and at most three requests, and every
    request it sends is that same POST (same URL, headers and payload). *)
Theorem X1_submission_sends_one_to_three
    (API_KEY : option string) (http_phrase : Z -> option string)
    (client : AsyncClient)
    (data : VideoGenerationRequest) :
  let rq := create_request API_KEY data in
  let out := run (call_wan_api_create API_KEY http_phrase client data) in
  (exists rest, log (snd out) = ESend rq :: rest)
  /\ Forall (fun rq' => rq' = rq) (sends (log (snd out)))
  /\ (1 <= List.length (sends (log (snd out))) <= 3)%nat
  /\ calls (snd out) = List.length (sends (log (snd out))).
Proof.
  intros rq out.
  destruct (submission_sends API_KEY http_phrase client data) as (Hfirst & Hall & Hlen).
  split; [ exact Hfirst | ]. split; [ exact Hall | ]. split; [ exact Hlen | ].
  clear Hfirst Hall Hlen.
  subst out. unfold run. rewrite call_wan_api_create_rounds.
  next_round; try reflexivity.
  next_round; try reflexivity.
  next_round; reflexivity.
Qed.

(** **** X2: the shape of every schedule *)

(** X2. Whatever the upstream does, the calls and sleeps of a submission are
    one POST, or two POSTs with a one-second sleep between them, or three
    POSTs with a one-second sleep between consecutive ones: the Executor
    never sleeps before its first call or after its last one, never sleeps
    for another duration, and never sleeps more than twice. *)
Theorem X2_schedule_alternates
    (API_KEY : option string) (http_phrase : Z -> option string)
    (client : AsyncClient)
    (data : VideoGenerationRequest) :
  let rq := create_request API_KEY data in
  let out := run (call_wan_api_create API_KEY http_phrase client data) in
  schedule (log (snd out)) = [ ESend rq ]
  \/ schedule (log (snd out)) = [ ESend rq; ESleep 1; ESend rq ]
  \/ schedule (log (snd out)) = [ ESend rq; ESleep 1; ESend rq; ESleep 1; ESend rq ].
Proof.
  intros rq out. subst out rq. unfold run. rewrite call_wan_api_create_rounds.
  next_round; try (left; reflexivity).
  next_round; try (right; left; reflexivity).
  next_round; right; right; reflexivity.
Qed.

(** **** X3: the code after the loop is dead *)

(** X3. The statement after the retry loop ("Unknown error during API
    call") is never run: whatever code is put after the loop, the run of
    the three rounds is the run of [call_wan_api_create], for every
    upstream. *)
Theorem X3_code_after_loop_unreachable
    (API_KEY : option string) (http_phrase : Z -> option string)
    (client : AsyncClient)
    (data : VideoGenerationRequest) (after : M json) :
  for_range max_retries (round API_KEY http_phrase client data) after init
  = run (call_wan_api_create API_KEY http_phrase client data).
Proof.
  unfold run. rewrite call_wan_api_create_rounds.
  unfold for_range, max_retries. cbn [seq].
  rewrite !for_each_cons.
  destruct (round_cases API_KEY http_phrase client data 0 init) as (o0 & evs0 & -> & Hstep0).
  inversion Hstep0; subst; try reflexivity.
  rewrite !for_each_cons.
  match goal with
  | |- context [ round _ _ _ _ 1 ?w ] =>
      destruct (round_cases API_KEY http_phrase client data 1 w) as (o1 & evs1 & -> & Hstep1)
  end.
  inversion Hstep1; subst; try reflexivity.
  rewrite !for_each_cons.
  match goal with
  | |- context [ round _ _ _ _ 2 ?w ] =>
      destruct (round_cases API_KEY http_phrase client data 2 w) as (o2 & evs2 & -> & Hstep2)
  end.
  pose proof (last_round_never_continues _ _ _ _ Hstep2) as Hne.
  destruct o2 as [ [ v | ] | e ]; [ reflexivity | congruence | reflexivity ].
Qed.

(** ** Retries do not change what a submission comes to *)

Lemma py_in_raises (k : string) (v : json) (e : exn) :
  py_in k v = Raise e -> e = TypeError.
Proof. destruct v; cbn; congruence. Qed.

Lemma py_getitem_raises (v : json) (k : string) (e : exn) :
  py_getitem v k = Raise e -> e = TypeError \/ e = KeyError k.
Proof.
  destruct v as [ | | | | | | d ]; cbn; try (intros [= <-]; auto).
  destruct (Dict.lookup k d); intros [= <-]; auto.
Qed.

(** An answer that is not a retried failure settles the round the same way
    at every attempt and in every world. *)
Lemma round_settles (API_KEY : option string) (http_phrase : Z -> option string)
    (client client' : AsyncClient)
    (data : VideoGenerationRequest) (a a' : nat) (w w' : world) :
  let rq := create_request API_KEY data in
  client (calls w) rq = client' (calls w') rq ->
  ~ transient (client (calls w) rq) ->
  fst (round API_KEY http_phrase client data a w) = fst (round API_KEY http_phrase client' data a' w').
Proof.
  intros rq Heq Hnot.
  unfold round, try_except, attempt_body, client_post, send, bind.
  fold create_url.
  change {| rq_method := POST; rq_url := create_url;
            rq_headers := create_headers API_KEY;
            rq_json := Some (build_payload data) |} with rq.
  rewrite <- Heq.
  destruct (client (calls w) rq) as [ r | cls msg ].
  - unfold response_json, raise_HTTPException, new_HTTPException.
    destruct (negb (status_code r =? 200));
      (destruct (json_body r) as [ body | ];
       [ | destruct (json_error r); reflexivity ]);
      cbn -[String.append];
      [ destruct body; try destruct (http_phrase (status_code r));
        reflexivity | ].
    destruct (py_in "output" body) as [ [ | ] | e ] eqn:E1; cbn;
      try reflexivity;
      [ | apply py_in_raises in E1; subst e; reflexivity ].
    destruct (py_getitem body "output") as [ output | e ] eqn:E2; cbn;
      [ | apply py_getitem_raises in E2; destruct E2; subst e; reflexivity ].
    destruct (py_in "task_id" output) as [ [ | ] | e ] eqn:E3; cbn;
      try reflexivity;
      [ | apply py_in_raises in E3; subst e; reflexivity ].
    destruct (py_getitem output "task_id") as [ task_id | e ] eqn:E4;
      [ reflexivity | ].
    apply py_getitem_raises in E4; destruct E4; subst e; reflexivity.
  - cbn [transient] in Hnot. apply not_true_is_false in Hnot.
    cbn -[String.append]. rewrite Hnot.
    destruct (is_RequestError cls); reflexivity.
Qed.

(** A round whose answer is not a retried failure ends the loop, with the
    outcome a first round would have had on that answer, and logs no
    sleep. *)
Lemma settle_here (API_KEY : option string) (http_phrase : Z -> option string)
    (client client' : AsyncClient)
    (data : VideoGenerationRequest) (a a' : nat) (w w' : world)
    (rest rest' : list nat) (after after' : M json) :
  let rq := create_request API_KEY data in
  client (calls w) rq = client' (calls w') rq ->
  ~ transient (client (calls w) rq) ->
  exists o evs,
    for_each (a :: rest) (round API_KEY http_phrase client data) after w
      = (o, after_call w (ESend rq :: evs))
    /\ schedule evs = []
    /\ fst (for_each (a' :: rest') (round API_KEY http_phrase client' data) after' w') = o.
Proof.
  intros rq Heq Hnot.
  pose proof (round_settles API_KEY http_phrase client client' data a a' w w' Heq Hnot)
    as Hfst.
  rewrite !for_each_cons.
  destruct (round_cases API_KEY http_phrase client data a w) as (o1 & evs & Hr & Hs).
  destruct (round_cases API_KEY http_phrase client' data a' w') as (o2 & evs' & Hr' & _).
  rewrite Hr, Hr' in Hfst |- *. cbn [fst] in Hfst. subst o2.
  inversion Hs; subst;
    try (do 2 eexists; split; [ reflexivity | split; reflexivity ]).
  exfalso. apply Hnot. unfold rq.
  match goal with H : Failed _ _ = client _ _ |- _ => rewrite <- H end.
  assumption.
Qed.

(** **** X6: a retried failure leaves no trace in the outcome *)

(** X6. If the first [k] POSTs ([k] at most 2) fail to connect or time out
    and the next one gets any other answer, the submission comes to exactly
    what a submission comes to whose very first POST gets that answer; it
    has made [k + 1] calls, with a one-second sleep after each of the first
    [k] and none after the last. *)
Theorem X6_retries_are_transparent
    (API_KEY : option string) (http_phrase : Z -> option string)
    (client : AsyncClient)
    (data : VideoGenerationRequest) (k : nat) :
  let rq := create_request API_KEY data in
  (k <= 2)%nat ->
  (forall n, (n < k)%nat -> transient (client n rq)) ->
  ~ transient (client k rq) ->
  let out := run (call_wan_api_create API_KEY http_phrase client data) in
  fst out = fst (run (call_wan_api_create API_KEY http_phrase (shift k client) data))
  /\ schedule (log (snd out)) = (retry_prefix k rq ++ [ ESend rq ])%list
  /\ calls (snd out) = S k.
Proof.
  intros rq Hk Htrans Hnot out. subst out. unfold run.
  rewrite !call_wan_api_create_rounds.
  destruct k as [ | [ | [ | k ] ] ]; [ | | | lia ].
  - destruct (settle_here API_KEY http_phrase client (shift 0 client) data 0 0 init init
                [1; 2]%nat [1; 2]%nat
                (raise (HTTPException 500 (JStr "Unknown error during API call")))
                (raise (HTTPException 500 (JStr "Unknown error during API call")))
                eq_refl Hnot)
      as (o & evs & -> & Hsched & ->).
    cbn. rewrite Hsched. auto.
  - pose proof (Htrans 0%nat ltac:(lia)) as H0.
    destruct (client 0%nat rq) as [ r0 | c0 m0 ] eqn:E0; [ contradiction | ].
    cbn [transient] in H0.
    rewrite for_each_cons.
    erewrite round_transient; [ | exact E0 | exact H0 | reflexivity ].
    match goal with
    | |- context [ for_each [1; 2]%nat _ ?after ?w ] =>
        destruct (settle_here API_KEY http_phrase client (shift 1 client) data 1 0 w init
                    [2]%nat [1; 2]%nat after after eq_refl Hnot)
          as (o & evs & -> & Hsched & ->)
    end.
    cbn. rewrite Hsched. auto.
  - pose proof (Htrans 0%nat ltac:(lia)) as H0.
    pose proof (Htrans 1%nat ltac:(lia)) as H1.
    destruct (client 0%nat rq) as [ r0 | c0 m0 ] eqn:E0; [ contradiction | ].
    destruct (client 1%nat rq) as [ r1 | c1 m1 ] eqn:E1; [ contradiction | ].
    cbn [transient] in H0, H1.
    rewrite for_each_cons.
    erewrite round_transient; [ | exact E0 | exact H0 | reflexivity ].
    rewrite for_each_cons.
    erewrite round_transient; [ | exact E1 | exact H1 | reflexivity ].
    match goal with
    | |- context [ for_each [2]%nat _ ?after ?w ] =>
        destruct (settle_here API_KEY http_phrase client (shift 2 client) data 2 0 w init
                    []%nat [1; 2]%nat after after eq_refl Hnot)
          as (o & evs & -> & Hsched & ->)
    end.
    cbn. rewrite Hsched. auto.
Qed.

(** A run of X6: a connect timeout, then a 400. *)
Lemma X6_witness :
  let out := run (call_wan_api_create (Some "sk-1") std_phrase (timeout_then bad_request)
                    sample_request) in
  fst out = Raise (HTTPException 400 (JObj [ ("code", JStr "InvalidParameter") ]))
  /\ calls (snd out) = 2%nat.
Proof.
  intros out.
  destruct (X6_retries_are_transparent (Some "sk-1") std_phrase (timeout_then bad_request)
              sample_request 1)
    as (Hfst & _ & Hcalls).
  - lia.
  - intros n Hn. assert (n = 0%nat) as -> by lia. reflexivity.
  - cbn. tauto.
  - split; [ | exact Hcalls ]. unfold out. rewrite Hfst. reflexivity.
Defined.

(** Every call before the [k]-th is among the retried failures found so
    far. *)
Ltac earlier_failed n :=
  destruct n as [ | [ | n ] ]; try lia;
  match goal with
  | H : Failed _ _ = ?c ?i _ |- transient (?c ?i _) =>
      rewrite <- H; assumption
  end.

(** **** X7: where a returned task id comes from *)

(** X7. A submission returns a value only if one of its at most three
    POSTs was answered 200 with a decoded body holding [output.task_id],
    every earlier POST having failed to connect or timed out; the value
    returned is that [output.task_id], and that POST was the last call. *)
Theorem X7_returned_id_is_upstream_task_id
    (API_KEY : option string) (http_phrase : Z -> option string)
    (client : AsyncClient)
    (data : VideoGenerationRequest) (task_id : json) :
  let rq := create_request API_KEY data in
  let out := run (call_wan_api_create API_KEY http_phrase client data) in
  fst out = Return task_id ->
  exists k r body,
    (k < 3)%nat
    /\ (forall n, (n < k)%nat -> transient (client n rq))
    /\ client k rq = Responded r
    /\ status_code r = 200
    /\ json_body r = Some body
    /\ task_id_of body = Some task_id
    /\ calls (snd out) = S k.
Proof.
  intros rq out. subst out rq. unfold run. rewrite call_wan_api_create_rounds.
  next_round; try discriminate;
    [ | intros [= <-]; exists 0%nat; do 2 eexists;
        repeat split; eauto; intros n Hn; lia ].
  next_round; try discriminate;
    [ | intros [= <-]; exists 1%nat; do 2 eexists;
        repeat split; eauto; intros n Hn; earlier_failed n ].
  next_round; try discriminate.
  intros [= <-]; exists 2%nat; do 2 eexists;
    repeat split; eauto; intros n Hn; earlier_failed n.
Qed.

(** A run of X7: the task is created at the second attempt. *)
Lemma X7_witness :
  let client := timeout_then task_created in
  let rq := create_request (Some "sk-1") sample_request in
  let out := run (call_wan_api_create (Some "sk-1") std_phrase client sample_request) in
  fst out = Return (JStr "t-42")
  /\ exists k r body,
       (k < 3)%nat
       /\ (forall n, (n < k)%nat -> transient (client n rq))
       /\ client k rq = Responded r
       /\ status_code r = 200
       /\ json_body r = Some body
       /\ task_id_of body = Some (JStr "t-42")
       /\ calls (snd out) = S k.
Proof.
  intros client rq out. split; [ reflexivity | ].
  apply (X7_returned_id_is_upstream_task_id (Some "sk-1") std_phrase client sample_request).
  reflexivity.
Defined.

(** **** X8: where the exceptions of a submission come from *)





(** **** X4: a request error that is not a connect error or a timeout *)

(** X4. When the first POST raises an [httpx.RequestError] that is neither
    a ConnectError nor a TimeoutException (a ReadError, a protocol error,
    ...), the submission is not retried: after that one call and without
    sleeping it raises HTTPException 500 "Network Error: <message>", having
    printed one line that names the exception's class. *)
Theorem X4_other_request_error_is_not_retried
    (API_KEY : option string) (http_phrase : Z -> option string)
    (client : AsyncClient)
    (data : VideoGenerationRequest) (cls : httpx_class) (msg : string) :
  let rq := create_request API_KEY data in
  client 0%nat rq = Failed cls msg ->
  retried cls = false ->
  is_RequestError cls = true ->
  run (call_wan_api_create API_KEY http_phrase client data) =
    (Raise (HTTPException 500 (JStr ("Network Error: " ++ msg))),
     {| calls := 1;
        log := [ ESend rq;
                 EPrint ("Network Error Occurred: " ++ class_name cls
                         ++ ": " ++ msg) ] |}).
Proof.
  intros rq H Hc Hr. apply first_round_decides.
  erewrite round_other_request_error; [ reflexivity | exact H | exact Hc | exact Hr ].
Qed.

(** A run of X4: the connection breaks while the response is read. *)
Lemma X4_witness :
  run (call_wan_api_create (Some "sk-1") std_phrase broken_pipe sample_request) =
    (Raise (HTTPException 500 (JStr "Network Error: peer closed connection")),
     {| calls := 1;
        log := [ ESend (create_request (Some "sk-1") sample_request);
                 EPrint "Network Error Occurred: ReadError: peer closed connection" ] |}).
Proof.
  apply (X4_other_request_error_is_not_retried
           (Some "sk-1") std_phrase broken_pipe sample_request ReadError
           "peer closed connection"); reflexivity.
Defined.

(** **** X5: exceptions of the client that are not request errors *)

(** X5. An exception of the client that is not an [httpx.RequestError] is
    caught by neither handler: it leaves [call_wan_api_create] after the
    first call, and [check_status] after its GET, unchanged, with nothing
    printed, no sleep and no retry. *)
Theorem X5_other_exceptions_propagate
    (API_KEY : option string) (py_repr : json -> string)
    (http_phrase : Z -> option string)
    (client : AsyncClient) (data : VideoGenerationRequest)
    (task_id : string) (cls : httpx_class) (msg : string) :
  is_RequestError cls = false ->
  (client 0%nat (create_request API_KEY data) = Failed cls msg ->
   run (call_wan_api_create API_KEY http_phrase client data) =
     (Raise (HttpxError cls msg),
      {| calls := 1; log := [ ESend (create_request API_KEY data) ] |}))
  /\ (client 0%nat (status_request API_KEY task_id) = Failed cls msg ->
      run (check_status API_KEY py_repr task_id {| http_client := client |}) =
        (Raise (HttpxError cls msg),
         {| calls := 1; log := [ ESend (status_request API_KEY task_id) ] |})).
Proof.
  intros Hr. split; intros H.
  - apply first_round_decides.
    erewrite round_not_request_error; [ reflexivity | exact H | | exact Hr ].
    destruct cls; try discriminate Hr. reflexivity.
  - rewrite (poll_transport_failure API_KEY py_repr client task_id cls msg H).
    rewrite Hr. reflexivity.
Qed.

(** A run of X5: the client rejects the URL. *)
Lemma X5_witness :
  run (check_status (Some "sk-1") repr_unused "t-42" {| http_client := bad_url |})
    = (Raise (HttpxError InvalidURL "Invalid non-printable ASCII character in URL"),
       {| calls := 1;
          log := [ ESend (status_request (Some "sk-1") "t-42") ] |}).
Proof.
  destruct (X5_other_exceptions_propagate
              (Some "sk-1") repr_unused std_phrase bad_url sample_request "t-42"
              InvalidURL "Invalid non-printable ASCII character in URL" eq_refl)
    as (_ & Hpoll).
  apply Hpoll. reflexivity.
Defined.

(** **** X9: a response is never retried *)

(** X9. Only transport failures are retried.  When the first POST gets a
    response, whatever its status and body, the submission ends there: one
    call, no sleep.  It returns a value exactly when the status is 200 and
    the decoded body holds [output.task_id], and then that value. *)
Theorem X9_a_response_ends_the_submission
    (API_KEY : option string) (http_phrase : Z -> option string)
    (client : AsyncClient)
    (data : VideoGenerationRequest) (r : response) :
  let rq := create_request API_KEY data in
  client 0%nat rq = Responded r ->
  let out := run (call_wan_api_create API_KEY http_phrase client data) in
  calls (snd out) = 1%nat
  /\ schedule (log (snd out)) = [ ESend rq ]
  /\ (forall task_id,
        fst out = Return task_id
        <-> status_code r = 200
            /\ exists body, json_body r = Some body
                            /\ task_id_of body = Some task_id).
Proof.
  intros rq H out. subst out rq. unfold run.
  rewrite call_wan_api_create_rounds.
  rewrite for_each_cons.
  destruct (round_cases API_KEY http_phrase client data 0 init) as (o & evs & -> & Hstep).
  cbn [calls init] in Hstep. rewrite H in Hstep.
  inversion Hstep; subst; cbn; (split; [ reflexivity | split; [ reflexivity | ] ]);
    intros task_id'; split;
    try discriminate;
    try (intros (Hs & body' & Hb & Ht); congruence).
  intros [= <-]. eauto.
Qed.

(** A run of X9: a 200 whose body is not JSON is not retried. *)
Lemma X9_witness :
  let out := run (call_wan_api_create (Some "sk-1") std_phrase (always not_json)
                    sample_request) in
  fst out = Raise JSONDecodeError
  /\ calls (snd out) = 1%nat
  /\ schedule (log (snd out)) = [ ESend (create_request (Some "sk-1") sample_request) ].
Proof.
  intros out.
  destruct (X9_a_response_ends_the_submission
              (Some "sk-1") std_phrase (always not_json) sample_request not_json eq_refl)
    as (Hc & Hs & _).
  split; [ reflexivity | split; [ exact Hc | exact Hs ] ].
Defined.

(** **** X10: the submit handler around the Submission Executor *)

(** X10. With a credential configured, [generate_video] does exactly what
    [call_wan_api_create] does on the request and the shared client: same
    calls, sleeps and prints; what the Executor raises it raises unchanged;
    what the Executor returns it wraps as
    [{"task_id": ..., "message": "Task created successfully"}]. *)
Theorem X10_submit_wraps_the_executor
    (API_KEY : option string) (http_phrase : Z -> option string)
    (client : AsyncClient)
    (request : VideoGenerationRequest) :
  key_missing API_KEY = false ->
  let sub := run (call_wan_api_create API_KEY http_phrase client request) in
  run (generate_video API_KEY http_phrase request {| http_client := client |})
  = (created (fst sub), snd sub).
Proof.
  intros Hk sub. subst sub.
  unfold run, generate_video, bind. rewrite Hk. cbn [ret http_client].
  destruct (call_wan_api_create API_KEY http_phrase client request init) as [ [ v | e ] w ];
    reflexivity.
Qed.

(** A run of X10: the task is created at the second attempt. *)
Lemma X10_witness :
  fst (run (generate_video (Some "sk-1") std_phrase sample_request
              {| http_client := timeout_then task_created |}))
  = Return (JObj [ ("task_id", JStr "t-42");
                   ("message", JStr "Task created successfully") ]).
Proof.
  rewrite (X10_submit_wraps_the_executor
             (Some "sk-1") std_phrase (timeout_then task_created) sample_request eq_refl).
  reflexivity.
Defined.

(** **** X11: a poll whose transport fails *)

(** X11. When the GET of a poll raises an [httpx.RequestError] of any kind,
    connect errors and timeouts included, [check_status] does not retry:
    after that one call and without sleeping it raises HTTPException 500
    whose detail is the exception's message, having printed one line. *)
Theorem X11_poll_transport_failure_is_not_retried
    (API_KEY : option string) (py_repr : json -> string)
    (client : AsyncClient) (task_id : string)
    (cls : httpx_class) (msg : string) :
  let rq := status_request API_KEY task_id in
  client 0%nat rq = Failed cls msg ->
  is_RequestError cls = true ->
  run (check_status API_KEY py_repr task_id {| http_client := client |}) =
    (Raise (HTTPException 500 (JStr msg)),
     {| calls := 1;
        log := [ ESend rq; EPrint ("Status Check Network Error: " ++ msg) ] |}).
Proof.
  intros rq H Hr.
  rewrite (poll_transport_failure API_KEY py_repr client task_id cls msg H).
  rewrite Hr. reflexivity.
Qed.

(** A run of X11: the upstream refuses the connection; a submission would
    have tried three times. *)
Lemma X11_witness :
  run (check_status (Some "sk-1") repr_unused "t-42"
         {| http_client := unreachable |}) =
    (Raise (HTTPException 500 (JStr "refused")),
     {| calls := 1;
        log := [ ESend (status_request (Some "sk-1") "t-42");
                 EPrint "Status Check Network Error: refused" ] |}).
Proof.
  apply (X11_poll_transport_failure_is_not_retried
           (Some "sk-1") repr_unused unreachable "t-42" ConnectError "refused");
    reflexivity.
Defined.

(** **** X12: when a poll returns *)

(** X12. [check_status] returns a report exactly when its GET is answered
    with a body that decodes to a JSON object whose [output], if present,
    is a JSON object; in every other case it raises. *)
Theorem X12_poll_returns_iff_object_shaped
    (API_KEY : option string) (py_repr : json -> string)
    (client : AsyncClient) (task_id : string) :
  let rq := status_request API_KEY task_id in
  let out := run (check_status API_KEY py_repr task_id
                    {| http_client := client |}) in
  (exists report, fst out = Return report)
  <-> (exists r body,
         client 0%nat rq = Responded r
         /\ json_body r = Some body
         /\ object_shaped body).
Proof.
  intros rq out. subst out. split.
  - intros (report & H).
    destruct (poll_returns API_KEY py_repr client task_id report H)
      as (r & body & Hr & Hb & Hs & _).
    exists r, body. auto.
  - intros (r & body & Hr & Hb & Hs).
    rewrite (poll_object_shaped API_KEY py_repr client task_id r body Hr Hb Hs).
    eexists. reflexivity.
Qed.

(** **** X13: the three kinds of report *)

Lemma prefix_append (s t : string) : String.prefix s (s ++ t) = true.
Proof.
  induction s as [ | a s IH ]; cbn; [ destruct t; reflexivity | ].
  destruct (ascii_dec a a) as [ _ | Hne ]; [ exact IH | congruence ].
Qed.

(** X13. Every report [check_status] returns has exactly the fields status,
    progress_msg, video_url and usage, and is of one of three kinds:
    status "SUCCEEDED" with progress_msg "Completed"; status "FAILED" with
    a progress_msg that begins "Failed: " and a null video_url; or any
    other status with progress_msg "Processing..." and a null video_url. *)
Theorem X13_report_is_one_of_three_kinds
    (API_KEY : option string) (py_repr : json -> string)
    (client : AsyncClient) (task_id : string) (report : json) :
  fst (run (check_status API_KEY py_repr task_id {| http_client := client |}))
    = Return report ->
  fields report = ["status"; "progress_msg"; "video_url"; "usage"]
  /\ exists status msg url,
       member "status" report = Some status
       /\ member "progress_msg" report = Some (JStr msg)
       /\ member "video_url" report = Some url
       /\ ((status = JStr "SUCCEEDED" /\ msg = "Completed")
           \/ (status = JStr "FAILED"
               /\ String.prefix "Failed: " msg = true /\ url = JNull)
           \/ (status <> JStr "SUCCEEDED" /\ status <> JStr "FAILED"
               /\ msg = "Processing..." /\ url = JNull)).
Proof.
  intros H.
  destruct (poll_returns API_KEY py_repr client task_id report H)
    as (r & body & _ & _ & _ & ->).
  unfold spec_status_report.
  set (status := or_default _ (JStr "UNKNOWN")).
  destruct (is_str "SUCCEEDED" status) eqn:Hs;
    [ | destruct (is_str "FAILED" status) eqn:Hf ].
  - apply is_str_true in Hs.
    split; [ reflexivity | ]. do 3 eexists.
    repeat split; try reflexivity. left. split; [ exact Hs | reflexivity ].
  - apply is_str_true in Hf.
    split; [ reflexivity | ]. do 3 eexists.
    repeat split; try reflexivity.
    right. left. split; [ exact Hf | split; [ apply prefix_append | reflexivity ] ].
  - apply is_str_false in Hs. apply is_str_false in Hf.
    split; [ reflexivity | ]. do 3 eexists.
    repeat split; try reflexivity.
    right. right. split; [ exact Hs | split; [ exact Hf | split; reflexivity ] ].
Qed.

(** A run of X13: the report of a finished task. *)
Lemma X13_witness :
  let report := JObj [ ("status", JStr "SUCCEEDED");
                       ("progress_msg", JStr "Completed");
                       ("video_url", JStr "http://x/v.mp4");
                       ("usage", JObj []) ] in
  fields report = ["status"; "progress_msg"; "video_url"; "usage"].
Proof.
  intros report.
  apply (X13_report_is_one_of_three_kinds (Some "sk-1") repr_unused
           (always {| status_code := 200; text := "{...}";
                      json_body := Some succeeded_body;
                      json_error := InvalidJSON |}) "t-42" report).
  reflexivity.
Defined.

(** **** X14: where the exceptions of a poll come from *)



(** **** X15: the credential on the wire *)

(** X15. Every request [generate_video] sends carries the header
    "Authorization: Bearer <key>" for the configured, non-empty key: the
    submit handler never puts a missing or empty credential on the wire.
    [check_status] has no such guard: with the variable unset its GET goes
    out with the header "Authorization: Bearer None". *)
Theorem X15_credential_on_the_wire
    (API_KEY : option string) (py_repr : json -> string)
    (http_phrase : Z -> option string)
    (client : AsyncClient) (request : VideoGenerationRequest)
    (task_id : string) :
  let req := {| http_client := client |} in
  (forall rq,
     In rq (sends (log (snd (run (generate_video API_KEY http_phrase request req))))) ->
     exists key,
       API_KEY = Some key
       /\ key <> ""
       /\ rq_headers rq =
            [ ("Content-Type", "application/json");
              ("Authorization", "Bearer " ++ key);
              ("X-DashScope-Async", "enable") ])
  /\ sends (log (snd (run (check_status None py_repr task_id req)))) =
       [ {| rq_method := GET;
            rq_url := BASE_URL ++ "/tasks/" ++ task_id;
            rq_headers := [ ("Authorization", "Bearer None") ];
            rq_json := None |} ].
Proof.
  intros req. split.
  - intros rq Hin.
    destruct (key_missing API_KEY) eqn:Hk.
    + exfalso. revert Hin.
      unfold run, generate_video, bind. rewrite Hk. cbn. tauto.
    + unfold run in Hin.
      assert (Hlog :
                log (snd (generate_video API_KEY http_phrase request req init))
                = log (snd (run (call_wan_api_create API_KEY http_phrase client request)))).
      { unfold run, generate_video, bind. rewrite Hk. cbn [ret http_client req].
        destruct (call_wan_api_create API_KEY http_phrase client request init)
          as [ [ v | e ] w ]; reflexivity. }
      rewrite Hlog in Hin.
      destruct (submission_sends API_KEY http_phrase client request) as (_ & Hall & _).
      rewrite Forall_forall in Hall. rewrite (Hall rq Hin).
      destruct API_KEY as [ key | ]; [ | discriminate Hk ].
      exists key. cbn in Hk. apply String.eqb_neq in Hk.
      repeat split; auto.
  - destruct (poll_sends None py_repr client task_id) as (Hsends & _).
    exact Hsends.
Qed.
